(** * Nylas Node SDK: request pipeline and auth-flow helpers

    A shallow embedding of [nylas-connection.ts] (class [NylasConnection]:
    [requestOptions], [_getWarningForVersion], [request]) and of [nylas.ts]
    (class [Nylas]: [config], [exchangeCodeForToken], [urlForAuthentication]),
    followed by the properties proved about them.

    JavaScript values are an inductive type, objects that the code shares
    and mutates live in an explicit heap, exceptions are a sum type, and
    a promise is represented by the way it is settled. *)

From Stdlib Require Import ZArith String Ascii List Lia.
From Stdlib Require Import Numbers.DecimalString.
From stdpp Require Import gmap strings list fin_maps.

Set Warnings "-register-all".
Open Scope string_scope.
Open Scope Z_scope.

(* ================================================================== *)
(** ** JavaScript values and the primitive operations the code uses   *)
(* ================================================================== *)

Module JS.

(** Values.  [JNum] holds the integer-valued numbers (status codes and the
    integers of a JSON body); fractions, NaN and the infinities do not occur
    as property values in this model.  Strings are sequences of code units
    below 256. *)
Inductive jsval :=
| JUndefined
| JNull
| JBool (b : bool)
| JNum (z : Z)
| JStr (s : string)
| JArr (l : list jsval)
| JObj (m : gmap string jsval).

(** ToBoolean: [undefined], [null], [false], [0] and [''] are falsy, every
    other value (objects and arrays included, also empty ones) is truthy. *)
Definition truthy (v : jsval) : bool :=
  match v with
  | JUndefined | JNull => false
  | JBool b => b
  | JNum z => negb (z =? 0)
  | JStr s => negb (String.eqb s "")
  | JArr _ | JObj _ => true
  end.

(** [v == null]. *)
Definition nullish (v : jsval) : bool :=
  match v with
  | JUndefined | JNull => true
  | _ => false
  end.

(** [v === true]. *)
Definition is_true (v : jsval) : bool :=
  match v with
  | JBool true => true
  | _ => false
  end.

(** A value that may be missing ([string | null | undefined], an optional
    field): [None] is [undefined]/[null]. *)
Definition of_option (o : option string) : jsval :=
  match o with
  | Some s => JStr s
  | None => JUndefined
  end.

(** An optional object is truthy when it is there. *)
Definition given {A} (o : option A) : bool :=
  match o with
  | Some _ => true
  | None => false
  end.

(** Truthiness of an optional string: present and not empty. *)
Definition present (o : option string) : bool := truthy (of_option o).

Definition Z_to_string (z : Z) : string :=
  NilEmpty.string_of_int (Z.to_int z).

(** [Array.prototype.join]: [undefined] and [null] elements print as the
    empty string. *)
Definition join_with (sep : string) (parts : list string) : string :=
  match parts with
  | [] => ""
  | p :: rest => fold_left (fun acc q => acc +:+ sep +:+ q) rest p
  end.

(** ToString, as a template literal applies it to an interpolated value.
    A number is printed digit by digit, which is what JavaScript prints for
    an integer of magnitude below 2^53; above that JavaScript prints the
    shortest digits that read back as the same number, and the statements
    that print a number are bounded accordingly. *)
Fixpoint ToString (v : jsval) : string :=
  match v with
  | JUndefined => "undefined"
  | JNull => "null"
  | JBool true => "true"
  | JBool false => "false"
  | JNum z => Z_to_string z
  | JStr s => s
  | JArr l =>
      join_with ","
        (List.map (fun x => if nullish x then "" else ToString x) l)
  | JObj _ => "[object Object]"
  end.

(** An [Error] object: its message and the [statusCode] the connection may
    attach to it. *)
Record Error := mkError {
  message : string;
  statusCode : option Z;
}.

(** Exceptions the modelled code can raise: the two the language raises by
    itself, and an [Error] the code throws. *)
Inductive exn :=
| TypeError
| SyntaxError
| Thrown (e : Error).

(** The completion of a piece of code: a value, or a thrown exception. *)
Inductive completion (A : Type) :=
| Normal (a : A)
| Throw (e : exn).
Arguments Normal {A} a.
Arguments Throw {A} e.

Definition bind {A B} (c : completion A) (k : A -> completion B) : completion B :=
  match c with
  | Normal a => k a
  | Throw e => Throw e
  end.

(** Sequencing is written [x ← c; k]: an exception of [c] ends the
    computation. *)
#[global] Instance completion_ret : MRet completion := @Normal.
#[global] Instance completion_bind : MBind completion := fun A B k c => bind c k.

(** Property read [v.k] / [v[k]].  Reading a property of [undefined] or
    [null] throws a TypeError; a primitive or an array has none of the
    property names this code reads, so the result is [undefined]. *)
Definition Get (v : jsval) (k : string) : completion jsval :=
  match v with
  | JUndefined | JNull => Throw TypeError
  | JObj m => Normal (default JUndefined (m !! k))
  | _ => Normal JUndefined
  end.

(** [new Error(m)]: an undefined message leaves the message empty, any
    other value is converted with ToString. *)
Definition new_Error (m : jsval) : Error :=
  {| message := match m with JUndefined => "" | _ => ToString m end;
     statusCode := None |}.

(** [e.message = m] and [e.statusCode = n]. *)
Definition set_message (m : string) (e : Error) : Error :=
  {| message := m; statusCode := statusCode e |}.

Definition set_statusCode (n : Z) (e : Error) : Error :=
  {| message := message e; statusCode := Some n |}.

(** The line feed that a template literal spanning lines contains. *)
Definition LF : string := String "010"%char EmptyString.

(** *** Numbers as [parseInt] produces them

    [parseInt] returns a double: an integer rounded to 53 significant bits,
    an infinity when the digits exceed the double range, or NaN. *)
Inductive number :=
| NaN
| Finite (z : Z)
| Infinity (negative : bool).

(** Round a mathematical integer to the nearest double, ties to even. *)
Definition to_double (z : Z) : number :=
  let a := Z.abs z in
  let r :=
    if a <? 2 ^ 53 then a
    else
      let shift := Z.log2 a - 52 in
      let q := Z.shiftr a shift in
      let rest := a - Z.shiftl q shift in
      let half := Z.shiftl 1 (shift - 1) in
      let up := (half <? rest) || ((rest =? half) && Z.odd q) in
      Z.shiftl (if up then q + 1 else q) shift in
  if 2 ^ 1024 <=? r then Infinity (z <? 0)
  else Finite (if z <? 0 then - r else r).

(** [a > b] on numbers: false as soon as one side is NaN. *)
Definition gt (a b : number) : bool :=
  match a, b with
  | NaN, _ | _, NaN => false
  | Finite x, Finite y => y <? x
  | Finite _, Infinity negative => negative
  | Infinity negative, Finite _ => negb negative
  | Infinity na, Infinity nb => negb na && nb
  end.

(** White space that [parseInt] skips (the code units below 256). *)
Definition is_white_space (c : ascii) : bool :=
  let n := nat_of_ascii c in
  existsb (Nat.eqb n) [9; 10; 11; 12; 13; 32; 160]%nat.

Fixpoint trim_start (s : string) : string :=
  match s with
  | String c rest => if is_white_space c then trim_start rest else s
  | EmptyString => s
  end.

(** The value of a digit in radix up to 36. *)
Definition digit_value (c : ascii) : option Z :=
  let n := Z.of_nat (nat_of_ascii c) in
  if (48 <=? n) && (n <=? 57) then Some (n - 48)
  else if (97 <=? n) && (n <=? 122) then Some (n - 87)
  else if (65 <=? n) && (n <=? 90) then Some (n - 55)
  else None.

(** The longest prefix of [s] made of digits of [radix], as an integer;
    [acc] is [None] until a digit has been read. *)
Fixpoint read_digits (radix : Z) (s : string) (acc : option Z) : option Z :=
  match s with
  | String c rest =>
      match digit_value c with
      | Some d =>
          if d <? radix
          then read_digits radix rest (Some (default 0 acc * radix + d))
          else acc
      | None => acc
      end
  | EmptyString => acc
  end.

(** [parseInt(s)] with no radix argument: leading white space, a sign, an
    optional [0x]/[0X] prefix (radix 16, otherwise 10), then digits up to the
    first character that is not one; NaN when there is no digit. *)
Definition parseInt (s : string) : number :=
  let s1 := trim_start s in
  let '(negative, s2) :=
    match s1 with
    | String "-" rest => (true, rest)
    | String "+" rest => (false, rest)
    | _ => (false, s1)
    end in
  let '(radix, s3) :=
    match s2 with
    | String "0" (String "x" rest) | String "0" (String "X" rest) => (16, rest)
    | _ => (10, s2)
    end in
  match read_digits radix s3 None with
  | None => NaN
  | Some m => to_double (if negative then - m else m)
  end.

(** [s.split('-')[0]]: the text before the first [-], all of [s] when it
    has none. *)
Fixpoint before_dash (s : string) : string :=
  match s with
  | String "-" _ => ""
  | String c rest => String c (before_dash rest)
  | EmptyString => ""
  end.

End JS.

(* ================================================================== *)
(** ** JSON.parse                                                      *)
(* ================================================================== *)

(** [JSON.parse] is a built-in of the host, not code of this library: the
    connection is parametrised by it.  This module gives the instance used
    to run the model on concrete texts: a recursive-descent reader of the
    JSON grammar.  A number literal with a fraction or an exponent, a
    literal beyond the double range and a [\u] escape of a code unit above
    255 have no value in [jsval]; such texts are outside the model and the
    reader refuses them. *)
Module JSON.
Import JS.

Definition quote : ascii := "034"%char.

Definition is_ws (c : ascii) : bool :=
  existsb (Nat.eqb (nat_of_ascii c)) [9; 10; 13; 32]%nat.

Fixpoint skip_ws (s : string) : string :=
  match s with
  | String c rest => if is_ws c then skip_ws rest else s
  | EmptyString => s
  end.

Definition is_digit (c : ascii) : bool :=
  let n := nat_of_ascii c in (48 <=? n)%nat && (n <=? 57)%nat.

(** [strip p s]: what follows the prefix [p] of [s]. *)
Fixpoint strip (p s : string) : option string :=
  match p, s with
  | EmptyString, _ => Some s
  | String a p', String b s' => if Ascii.eqb a b then strip p' s' else None
  | String _ _, EmptyString => None
  end.

(** A run of decimal digits, most significant first. *)
Fixpoint read_decimal (s : string) (acc : Z) : Z * string :=
  match s with
  | String c rest =>
      if is_digit c
      then read_decimal rest (acc * 10 + Z.of_nat (nat_of_ascii c) - 48)
      else (acc, s)
  | EmptyString => (acc, s)
  end.

(** The integer part of a number: [0], or a non-zero digit and more digits. *)
Definition read_integer (s : string) : option (Z * string) :=
  match s with
  | String "0" rest => Some (0, rest)
  | String c _ => if is_digit c then Some (read_decimal s 0) else None
  | EmptyString => None
  end.

Definition read_number (s : string) : option (jsval * string) :=
  let '(negative, s1) :=
    match s with
    | String "-" rest => (true, rest)
    | _ => (false, s)
    end in
  match read_integer s1 with
  | Some (m, rest) =>
      match rest with
      | String "." _ | String "e" _ | String "E" _ => None
      | _ =>
          match to_double (if negative then - m else m) with
          | Finite z => Some (JNum z, rest)
          | _ => None
          end
      end
  | None => None
  end.

Definition hex4 (a b c d : ascii) : option Z :=
  match digit_value a, digit_value b, digit_value c, digit_value d with
  | Some x, Some y, Some z, Some w =>
      if (x <? 16) && (y <? 16) && (z <? 16) && (w <? 16)
      then Some (((x * 16 + y) * 16 + z) * 16 + w)
      else None
  | _, _, _, _ => None
  end.

(** The characters of a string literal after its opening quote, up to the
    closing one. *)
Fixpoint read_string (s : string) : option (string * string) :=
  match s with
  | EmptyString => None
  | String c rest =>
      if Ascii.eqb c quote then Some ("", rest)
      else if Ascii.eqb c "\" then
        match rest with
        | String e rest' =>
            let continue (ch : ascii) (tail : string) :=
              match read_string tail with
              | Some (str, r) => Some (String ch str, r)
              | None => None
              end in
            if Ascii.eqb e quote then continue quote rest'
            else if Ascii.eqb e "\" then continue "\"%char rest'
            else if Ascii.eqb e "/" then continue "/"%char rest'
            else if Ascii.eqb e "b" then continue "008"%char rest'
            else if Ascii.eqb e "f" then continue "012"%char rest'
            else if Ascii.eqb e "n" then continue "010"%char rest'
            else if Ascii.eqb e "r" then continue "013"%char rest'
            else if Ascii.eqb e "t" then continue "009"%char rest'
            else if Ascii.eqb e "u" then
              match rest' with
              | String h1 (String h2 (String h3 (String h4 tail))) =>
                  match hex4 h1 h2 h3 h4 with
                  | Some n =>
                      if n <? 256
                      then continue (ascii_of_nat (Z.to_nat n)) tail
                      else None
                  | None => None
                  end
              | _ => None
              end
            else None
        | EmptyString => None
        end
      else if (nat_of_ascii c <? 32)%nat then None
      else
        match read_string rest with
        | Some (str, r) => Some (String c str, r)
        | None => None
        end
  end.

(** A value, the elements of an array after its first bracket, and the
    members of an object after its first brace.  Every call uses one unit of
    [fuel]. *)
Fixpoint read_value (fuel : nat) (s : string) : option (jsval * string) :=
  match fuel with
  | O => None
  | S fuel' =>
      match skip_ws s with
      | String "n" _ => option_map (pair JNull) (strip "null" (skip_ws s))
      | String "t" _ => option_map (pair (JBool true)) (strip "true" (skip_ws s))
      | String "f" _ => option_map (pair (JBool false)) (strip "false" (skip_ws s))
      | String "[" rest =>
          match skip_ws rest with
          | String "]" rest' => Some (JArr [], rest')
          | _ =>
              match read_elements fuel' rest with
              | Some (l, rest') => Some (JArr l, rest')
              | None => None
              end
          end
      | String "{" rest =>
          match skip_ws rest with
          | String "}" rest' => Some (JObj ∅, rest')
          | _ =>
              match read_members fuel' rest ∅ with
              | Some (m, rest') => Some (JObj m, rest')
              | None => None
              end
          end
      | String c rest =>
          if Ascii.eqb c quote then
            match read_string rest with
            | Some (str, rest') => Some (JStr str, rest')
            | None => None
            end
          else read_number (skip_ws s)
      | EmptyString => None
      end
  end
with read_elements (fuel : nat) (s : string) : option (list jsval * string) :=
  match fuel with
  | O => None
  | S fuel' =>
      match read_value fuel' s with
      | Some (v, rest) =>
          match skip_ws rest with
          | String "," rest' =>
              match read_elements fuel' rest' with
              | Some (l, r) => Some (v :: l, r)
              | None => None
              end
          | String "]" rest' => Some ([v], rest')
          | _ => None
          end
      | None => None
      end
  end
with read_members (fuel : nat) (s : string) (acc : gmap string jsval)
    : option (gmap string jsval * string) :=
  match fuel with
  | O => None
  | S fuel' =>
      match skip_ws s with
      | String c rest =>
          if Ascii.eqb c quote then
            match read_string rest with
            | Some (key, rest1) =>
                match skip_ws rest1 with
                | String ":" rest2 =>
                    match read_value fuel' rest2 with
                    | Some (v, rest3) =>
                        match skip_ws rest3 with
                        | String "," rest4 =>
                            read_members fuel' rest4 (<[key := v]> acc)
                        | String "}" rest4 => Some (<[key := v]> acc, rest4)
                        | _ => None
                        end
                    | None => None
                    end
                | _ => None
                end
            | None => None
            end
          else None
      | EmptyString => None
      end
  end.

(** [JSON.parse(text)]: the value of the text, or a SyntaxError. *)
Definition parse (text : string) : completion jsval :=
  match read_value (S (String.length text)) text with
  | Some (v, rest) =>
      match skip_ws rest with
      | EmptyString => Normal v
      | String _ _ => Throw SyntaxError
      end
  | None => Throw SyntaxError
  end.

End JSON.

(* ================================================================== *)
(** ** The heap of shared objects                                      *)
(* ================================================================== *)

(** A request description refers to its [headers] and [qs] objects; the
    caller keeps the same references.  Such objects live in a heap, so that
    writing through one reference is seen through the other. *)
Module Heap.
Import JS.

Abbreviation loc := positive.

Abbreviation heap := (gmap positive (gmap string jsval)).

(** A new object: a location the heap does not use yet. *)
Definition alloc (o : gmap string jsval) (h : heap) : loc * heap :=
  let l := fresh (dom h) in (l, <[l := o]> h).

(** [obj[k]]: [undefined] when the object has no such property. *)
Definition get_prop (h : heap) (l : loc) (k : string) : jsval :=
  default JUndefined (h !! l ≫= fun o => o !! k).

(** [obj[k] = v]. *)
Definition set_prop (l : loc) (k : string) (v : jsval) (h : heap) : heap :=
  alter (insert k v) l h.

(** [delete obj[k]]. *)
Definition delete_prop (l : loc) (k : string) (h : heap) : heap :=
  alter (delete k) l h.

End Heap.

(* ================================================================== *)
(** ** config.ts                                                       *)
(* ================================================================== *)

(** Modelled from the spec: the module [./config] is not among the sources.
    The spec describes it as process-wide mutable settings holding the client
    secret and the API server URL, written through [setClientSecret] and
    [setApiServer]; [nylas.ts] types [apiServer] as [string | null] and
    [clientSecret] as [string]. *)
Module config.

Record t := mk {
  apiServer : option string;
  clientSecret : string;
}.

Definition setClientSecret (newClientSecret : string) (c : t) : t :=
  {| apiServer := apiServer c; clientSecret := newClientSecret |}.

Definition setApiServer (newApiServer : option string) (c : t) : t :=
  {| apiServer := newApiServer; clientSecret := clientSecret c |}.

(** [`${apiServer}`] in a template literal: a [null] server prints as
    [null]. *)
Definition apiServer_text (c : t) : string :=
  match apiServer c with
  | Some s => s
  | None => "null"
  end.

End config.

(* ================================================================== *)
(** ** nylas-connection.ts                                             *)
(* ================================================================== *)

(** The request description a caller passes ([RequestOptions]).  An
    optional field is an [option]; [formData] and [body], typed [any], are
    [JUndefined] when missing. *)
Module RequestOptions.
Import JS Heap.

Record t := mk {
  path : string;
  method : option string;
  headers : option loc;
  qs : option loc;
  downloadRequest : option bool;
  json : option bool;
  formData : jsval;
  body : jsval;
}.

End RequestOptions.

(** The [auth] member of the transport options. *)
Module Auth.

Record t := mk {
  user : string;
  pass : string;
  sendImmediately : bool;
}.

End Auth.

(** The options handed to the transport ([CoreOptions & UrlOptions] of the
    [request] library), with the members [requestOptions] sets.  A member
    that is not set is [None]. *)
Module CoreOptions.
Import JS Heap.

Record t := mk {
  method : string;
  url : string;
  headers : loc;
  json : bool;
  encoding : option jsval;
  formData : option jsval;
  body : option jsval;
  qs : option loc;
  auth : option Auth.t;
}.

End CoreOptions.

(** The response object the transport passes to its callback. *)
Module Response.
Import JS.

Record t := mk {
  statusCode : Z;
  headers : gmap string string;
  body : jsval;
}.

End Response.

Module NylasConnection.
Import JS Heap.

Definition SUPPORTED_API_VERSION : string := "2.1".

(** The fields of a connection that the request pipeline reads. *)
Record t := mk {
  accessToken : option string;
  clientId : option string;
}.

(** The query object of the new options: a copy of the caller's, in which a
    truthy [expanded] is removed, after setting [view] when it is [true]. *)
Definition copy_qs (options : RequestOptions.t) (h : heap) : option loc * heap :=
  match RequestOptions.qs options with
  | Some l =>
      let '(lq, h1) := alloc (default ∅ (h !! l)) h in
      let h2 :=
        if truthy (get_prop h1 lq "expanded") then
          let h' :=
            if is_true (get_prop h1 lq "expanded")
            then set_prop lq "view" (JStr "expanded") h1
            else h1 in
          delete_prop lq "expanded" h'
        else h1 in
      (Some lq, h2)
  | None => (None, h)
  end.

(** The credential of a request: the client secret for a path under
    [/a/], the connection's access token otherwise. *)
Definition credential (c : config.t) (conn : t) (options : RequestOptions.t)
    : option string :=
  if String.eqb (substring 0 3 (RequestOptions.path options)) "/a/"
  then Some (config.clientSecret c)
  else accessToken conn.

Section WithPackage.

(** [PACKAGE_JSON.version], read from [package.json]. *)
Variable SDK_VERSION : string.

(** The header writes at the end of [requestOptions], on the object the new
    options refer to. *)
Definition set_headers (conn : t) (lh : loc) (h : heap) : heap :=
  let h1 :=
    if nullish (get_prop h lh "User-Agent")
    then set_prop lh "User-Agent" (JStr ("Nylas Node SDK v" +:+ SDK_VERSION)) h
    else h in
  let h2 := set_prop lh "Nylas-API-Version" (JStr SUPPORTED_API_VERSION) h1 in
  let h3 := set_prop lh "Nylas-SDK-API-Version" (JStr SUPPORTED_API_VERSION) h2 in
  set_prop lh "X-Nylas-Client-Id" (of_option (clientId conn)) h3.

(** [requestOptions(options)]: the transport options and the heap after the
    call. *)
Definition requestOptions (c : config.t) (conn : t) (options : RequestOptions.t)
    (h : heap) : CoreOptions.t * heap :=
  let method :=
    match RequestOptions.method options with
    | Some m => if String.eqb m "" then "GET" else m
    | None => "GET"
    end in
  let url := config.apiServer_text c +:+ RequestOptions.path options in
  let '(lh, h1) :=
    match RequestOptions.headers options with
    | Some l => (l, h)
    | None => alloc ∅ h
    end in
  let json := default true (RequestOptions.json options) in
  let encoding :=
    if default false (RequestOptions.downloadRequest options)
    then Some JNull else None in
  let '(formData, body) :=
    if truthy (RequestOptions.formData options)
    then (Some (RequestOptions.formData options), None)
    else (None,
          Some (if truthy (RequestOptions.body options)
                then RequestOptions.body options else JObj ∅)) in
  let '(qs, h2) := copy_qs options h1 in
  let user := credential c conn options in
  let auth :=
    match user with
    | Some u =>
        if present user
        then Some {| Auth.user := u; Auth.pass := ""; Auth.sendImmediately := true |}
        else None
    | None => None
    end in
  let h3 := set_headers conn lh h2 in
  ({| CoreOptions.method := method; CoreOptions.url := url;
      CoreOptions.headers := lh; CoreOptions.json := json;
      CoreOptions.encoding := encoding; CoreOptions.formData := formData;
      CoreOptions.body := body; CoreOptions.qs := qs;
      CoreOptions.auth := auth |}, h3).

End WithPackage.

(** [a != b] on two optional strings. *)
Definition differ (a b : option string) : bool :=
  match a, b with
  | Some x, Some y => negb (String.eqb x y)
  | None, None => false
  | _, _ => true
  end.

(** The texts [_getWarningForVersion] builds its warning from. *)
Definition mismatch_text (sdkApiVersion apiVersion : string) : string :=
  "WARNING: SDK version may not support your Nylas API version." +:+
  " SDK supports version " +:+ sdkApiVersion +:+ " of the API and your application" +:+
  " is currently running on version " +:+ apiVersion +:+ " of the API.".

Definition dashboard_hint : string :=
  " Please update the version of the API that your application is using through the developer dashboard.".

Definition sdk_hint : string :=
  " Please update the sdk to ensure it works properly.".

(** [_getWarningForVersion(sdkApiVersion, apiVersion)]. *)
Definition _getWarningForVersion (sdkApiVersion apiVersion : option string) : string :=
  let warning := "" in
  if differ sdkApiVersion apiVersion then
    match sdkApiVersion, apiVersion with
    | Some sdk, Some api =>
        if present sdkApiVersion && present apiVersion then
          let warning := warning +:+ mismatch_text sdk api in
          let apiNum := parseInt (before_dash api) in
          let sdkNum := parseInt (before_dash sdk) in
          if gt sdkNum apiNum then warning +:+ dashboard_hint
          else if gt apiNum sdkNum then warning +:+ sdk_hint
          else warning
        else warning
    | _, _ => warning
    end
  else warning.

(** The arguments the transport passes to the completion callback:
    [(error, response, body)]. *)
Record Reply := mkReply {
  error : option Error;
  response : option Response.t;
  body : jsval;
}.

(** What a promise of [request] is resolved with. *)
Inductive resolution :=
| FullResponse (r : Response.t)
| Body (b : jsval).

(** How the promise is settled. *)
Inductive settlement :=
| Resolved (v : resolution)
| Rejected (e : Error).

(** What the completion callback did: the warnings it wrote with
    [console.warn], and either the settlement of the promise or the
    exception that left the callback before [resolve] or [reject] was
    called (the promise then stays pending). *)
Record Outcome := mkOutcome {
  warnings : list string;
  promise : completion settlement;
}.

(** The default of the callback's third parameter: [body = {}]. *)
Definition default_body (body : jsval) : jsval :=
  match body with
  | JUndefined => JObj ∅
  | _ => body
  end.

Section WithHost.

Variable SDK_VERSION : string.

(** The host's [JSON.parse]. *)
Variable JSON_parse : string -> completion jsval.

(** The body the callback works on: the default of its parameter for an
    undefined one, parsed when the resolved options have [json] false. *)
Definition parsed_body (resolvedOptions : CoreOptions.t) (body : jsval)
    : completion jsval :=
  let body := default_body body in
  if negb (CoreOptions.json resolvedOptions)
  then JSON_parse (ToString body)
  else Normal body.

(** The error a failed request is rejected with. *)
Definition enrich (error : option Error) (response : Response.t) (body : jsval)
    : completion Error :=
  error ← match error with
          | Some e => mret e
          | None => m ← Get body "message"; mret (new_Error m)
          end;
  missing_fields ← Get body "missing_fields";
  error ← (if truthy missing_fields
           then m ← Get body "message";
                mret (set_message
                        (ToString m +:+ ": " +:+ ToString missing_fields) error)
           else mret error);
  server_error ← Get body "server_error";
  let error :=
    if truthy server_error
    then set_message
           (message error +:+ " (Server Error:" +:+ LF +:+
            "              " +:+ ToString server_error +:+ LF +:+
            "            )") error
    else error in
  let error :=
    if negb (Response.statusCode response =? 0)
    then set_statusCode (Response.statusCode response) error
    else error in
  mret error.

(** The completion callback of [request]. *)
Definition complete (options : RequestOptions.t) (resolvedOptions : CoreOptions.t)
    (reply : Reply) : Outcome :=
  match response reply with
  | None =>
      {| warnings := [];
         promise := Normal (Rejected
           (default (new_Error (JStr "No response")) (error reply))) |}
  | Some response =>
      let apiVersion := Response.headers response !! "nylas-api-version" in
      let warning := _getWarningForVersion (Some SUPPORTED_API_VERSION) apiVersion in
      {| warnings := if String.eqb warning "" then [] else [warning];
         promise :=
           body ← parsed_body resolvedOptions (body reply);
           if given (error reply) || (299 <? Response.statusCode response)
           then e ← enrich (error reply) response body; mret (Rejected e)
           else if default false (RequestOptions.downloadRequest options)
                then mret (Resolved (FullResponse response))
                else mret (Resolved (Body body)) |}
  end.

(** [request(options)]: the options sent to the transport, the heap after
    building them, and what the callback does with the transport's reply. *)
Definition request (c : config.t) (conn : t) (options : RequestOptions.t)
    (h : heap) (reply : Reply) : CoreOptions.t * heap * Outcome :=
  let '(resolvedOptions, h') := requestOptions SDK_VERSION c conn options h in
  (resolvedOptions, h', complete options resolvedOptions reply).

End WithHost.

End NylasConnection.

(* ================================================================== *)
(** ** nylas.ts                                                        *)
(* ================================================================== *)

(** The argument of [Nylas.config]. *)
Module ConfigArgs.

Record t := mk {
  clientId : string;
  clientSecret : string;
  apiServer : option string;
}.

End ConfigArgs.

(** The argument of [Nylas.urlForAuthentication]. *)
Module AuthOptions.

Record t := mk {
  redirectURI : option string;
  loginHint : option string;
  state : option string;
  scopes : option (list string);
}.

End AuthOptions.

(** The argument of [Nylas.application]: both spellings of each field. *)
Module ApplicationOptions.

Record t := mk {
  application_name : option string;
  redirect_uris : option (list string);
  applicationName : option string;
  redirectUris : option (list string);
}.

End ApplicationOptions.

(** The options of the token request. *)
Module TokenRequest.
Import JS.

Record t := mk {
  method : string;
  json : bool;
  url : string;
  qs : gmap string jsval;
}.

End TokenRequest.

Module Nylas.
Import JS.

(** Which collection [Nylas.accounts] holds. *)
Inductive accounts_collection :=
| ManagementAccounts
| RestfulAccounts.

(** The statics of class [Nylas]: [clientId] is a field of the class,
    [clientSecret] and [apiServer] are accessors of the [config] module; the
    connection is the one [connect], [webhooks] and [accounts] share. *)
Record t := mk {
  clientId : string;
  settings : config.t;
  conn : option NylasConnection.t;
  accounts : option accounts_collection;
}.

Definition clientSecret (st : t) : string := config.clientSecret (settings st).

Definition apiServer (st : t) : option string := config.apiServer (settings st).

(** [clientCredentials()]: both are strings here, so neither is [null]. *)
Definition clientCredentials (st : t) : bool :=
  negb (nullish (JStr (clientId st))) && negb (nullish (JStr (clientSecret st))).

(** [s.indexOf('://') === -1]. *)
Definition no_scheme (s : string) : bool :=
  negb (given (String.index 0 "://" s)).

(** Assignments to the statics. *)
Definition set_clientId (v : string) (st : t) : t :=
  {| clientId := v; settings := settings st; conn := conn st;
     accounts := accounts st |}.

Definition set_settings (v : config.t) (st : t) : t :=
  {| clientId := clientId st; settings := v; conn := conn st;
     accounts := accounts st |}.

Definition set_conn (v : NylasConnection.t) (st : t) : t :=
  {| clientId := clientId st; settings := settings st; conn := Some v;
     accounts := accounts st |}.

Definition set_accounts (v : accounts_collection) (st : t) : t :=
  {| clientId := clientId st; settings := settings st; conn := conn st;
     accounts := Some v |}.

Definition production_server : string := "https://api.nylas.com".

(** [Nylas.config({clientId, clientSecret, apiServer})]. *)
Definition config (args : ConfigArgs.t) (st : t) : completion t :=
  if present (ConfigArgs.apiServer args)
     && no_scheme (default "" (ConfigArgs.apiServer args))
  then Throw (Thrown (new_Error
         (JStr "Please specify a fully qualified URL for the API Server.")))
  else
    let st :=
      if truthy (JStr (ConfigArgs.clientId args))
      then set_clientId (ConfigArgs.clientId args) st else st in
    let st :=
      if truthy (JStr (ConfigArgs.clientSecret args))
      then set_settings
             (config.setClientSecret (ConfigArgs.clientSecret args) (settings st)) st
      else st in
    let st :=
      if present (ConfigArgs.apiServer args)
      then set_settings
             (config.setApiServer (ConfigArgs.apiServer args) (settings st)) st
      else set_settings
             (config.setApiServer (Some production_server) (settings st)) st in
    let connection :=
      {| NylasConnection.accessToken := Some (clientSecret st);
         NylasConnection.clientId := Some (clientId st) |} in
    let st := set_conn connection st in
    Normal (set_accounts
              (if clientCredentials st then ManagementAccounts else RestfulAccounts)
              st).




(** [Nylas.urlForAuthentication(options)]: the URL, and the options object
    after the call (its [loginHint] is set when it was missing). *)
Definition urlForAuthentication (st : t) (options : AuthOptions.t)
    : completion (string * AuthOptions.t) :=
  if negb (truthy (JStr (clientId st)))
  then Throw (Thrown (new_Error (JStr
         "urlForAuthentication() cannot be called until you provide a clientId via config()")))
  else
    match AuthOptions.redirectURI options with
    | Some redirectURI =>
        if negb (truthy (JStr redirectURI))
        then Throw (Thrown (new_Error (JStr
               "urlForAuthentication() requires options.redirectURI")))
        else
          let loginHint :=
            match AuthOptions.loginHint options with
            | Some hint => hint
            | None => ""
            end in
          let options' :=
            {| AuthOptions.redirectURI := AuthOptions.redirectURI options;
               AuthOptions.loginHint := Some loginHint;
               AuthOptions.state := AuthOptions.state options;
               AuthOptions.scopes := AuthOptions.scopes options |} in
          let url :=
            config.apiServer_text (settings st) +:+ "/oauth/authorize?client_id=" +:+
            clientId st +:+ "&response_type=code&login_hint=" +:+ loginHint +:+
            "&redirect_uri=" +:+ redirectURI in
          let url :=
            match AuthOptions.state options with
            | Some state => url +:+ "&state=" +:+ state
            | None => url
            end in
          let url :=
            match AuthOptions.scopes options with
            | Some scopes => url +:+ "&scopes=" +:+ join_with "," scopes
            | None => url
            end in
          Normal (url, options')
    | None =>
        Throw (Thrown (new_Error (JStr
          "urlForAuthentication() requires options.redirectURI")))
    end.

(** [Nylas.with(accessToken)]. *)
Definition with_ (st : t) (accessToken : string) : completion NylasConnection.t :=
  if negb (truthy (JStr accessToken))
  then Throw (Thrown (new_Error (JStr "This function requires an access token")))
  else Normal {| NylasConnection.accessToken := Some accessToken;
                 NylasConnection.clientId := Some (clientId st) |}.

(** [a || b]. *)
Definition or_else (a b : jsval) : jsval := if truthy a then a else b.

(** An optional array of strings as a value. *)
Definition of_strings (o : option (list string)) : jsval :=
  match o with
  | Some l => JArr (List.map JStr l)
  | None => JUndefined
  end.

(** The request description [Nylas.application] builds. *)
Definition application_request (st : t) (options : option ApplicationOptions.t)
    : RequestOptions.t :=
  let path := "/a/" +:+ clientId st in
  match options with
  | Some o =>
      {| RequestOptions.path := path;
         RequestOptions.method := Some "PUT";
         RequestOptions.headers := None; RequestOptions.qs := None;
         RequestOptions.downloadRequest := None; RequestOptions.json := None;
         RequestOptions.formData := JUndefined;
         RequestOptions.body :=
           JObj {[ "application_name" :=
                     or_else (of_option (ApplicationOptions.applicationName o))
                             (of_option (ApplicationOptions.application_name o));
                   "redirect_uris" :=
                     or_else (of_strings (ApplicationOptions.redirectUris o))
                             (of_strings (ApplicationOptions.redirect_uris o)) ]} |}
  | None =>
      {| RequestOptions.path := path;
         RequestOptions.method := None;
         RequestOptions.headers := None; RequestOptions.qs := None;
         RequestOptions.downloadRequest := None; RequestOptions.json := None;
         RequestOptions.formData := JUndefined;
         RequestOptions.body := JUndefined |}
  end.

Section Application.

Variable SDK_VERSION : string.
Variable JSON_parse : string -> completion jsval.

(** [Nylas.application(options)]: an exception thrown before any request,
    or the request made on a connection without access token. *)
Definition application (st : t) (options : option ApplicationOptions.t)
    (h : Heap.heap) (reply : NylasConnection.Reply)
    : completion (CoreOptions.t * Heap.heap * NylasConnection.Outcome) :=
  if negb (truthy (JStr (clientId st)))
  then Throw (Thrown (new_Error (JStr "This function requires a clientId")))
  else if negb (truthy (JStr (clientSecret st)))
  then Throw (Thrown (new_Error (JStr "This function requires a clientSecret")))
  else
    let connection :=
      {| NylasConnection.accessToken := None;
         NylasConnection.clientId := Some (clientId st) |} in
    Normal (NylasConnection.request SDK_VERSION JSON_parse (settings st)
              connection (application_request st options) h reply).

End Application.

End Nylas.

(* ================================================================== *)
(** ** Vocabulary of the statements                                    *)
(* ================================================================== *)

(** [needle] occurs in [s]. *)
Definition contains (needle s : string) : Prop :=
  exists before after, s = before +:+ needle +:+ after.

(** The value a guarded assignment [if (passed) stored = passed] leaves:
    the one passed when it is not empty, the stored one otherwise. *)
Definition kept (passed stored : string) : string :=
  if String.eqb passed "" then stored else passed.

(** The property [k] of a value, [undefined] when the value is not an
    object (a primitive, [null] or [undefined] carries no field). *)
Definition field (v : JS.jsval) (k : string) : JS.jsval :=
  match v with
  | JS.JObj m => default JS.JUndefined (m !! k)
  | _ => JS.JUndefined
  end.


(** Run the sequencing of completions in the goal. *)
Ltac run := cbn [mbind JS.completion_bind JS.bind mret JS.completion_ret].


(* ================================================================== *)
(** ** Data of the worked examples                                     *)
(* ================================================================== *)

Module Sample.
Import JS.

Definition sdk_version : string := "4.7.0".

Definition settings : config.t :=
  {| config.apiServer := Some "https://api.nylas.com";
     config.clientSecret := "s3cr3t" |}.

Definition connection : NylasConnection.t :=
  {| NylasConnection.accessToken := Some "t0k3n";
     NylasConnection.clientId := Some "abc" |}.

(** [{ path }] with every optional field left out. *)
Definition get (path : string) : RequestOptions.t :=
  {| RequestOptions.path := path; RequestOptions.method := None;
     RequestOptions.headers := None; RequestOptions.qs := None;
     RequestOptions.downloadRequest := None; RequestOptions.json := None;
     RequestOptions.formData := JUndefined; RequestOptions.body := JUndefined |}.

(** A download, and a request for a raw body ([json] false). *)
Definition download (path : string) : RequestOptions.t :=
  {| RequestOptions.path := path; RequestOptions.method := None;
     RequestOptions.headers := None; RequestOptions.qs := None;
     RequestOptions.downloadRequest := Some true; RequestOptions.json := None;
     RequestOptions.formData := JUndefined; RequestOptions.body := JUndefined |}.

Definition raw (path : string) : RequestOptions.t :=
  {| RequestOptions.path := path; RequestOptions.method := Some "GET";
     RequestOptions.headers := None; RequestOptions.qs := None;
     RequestOptions.downloadRequest := None; RequestOptions.json := Some false;
     RequestOptions.formData := JUndefined; RequestOptions.body := JUndefined |}.

(** Sending a raw message: the body is the text, [json] is false. *)
Definition send_raw (mime : string) : RequestOptions.t :=
  {| RequestOptions.path := "/send"; RequestOptions.method := Some "POST";
     RequestOptions.headers := None; RequestOptions.qs := None;
     RequestOptions.downloadRequest := None; RequestOptions.json := Some false;
     RequestOptions.formData := JUndefined; RequestOptions.body := JStr mime |}.

(** A multipart upload. *)
Definition upload (path : string) (formData : jsval) : RequestOptions.t :=
  {| RequestOptions.path := path; RequestOptions.method := Some "POST";
     RequestOptions.headers := None; RequestOptions.qs := None;
     RequestOptions.downloadRequest := None; RequestOptions.json := None;
     RequestOptions.formData := formData;
     RequestOptions.body := JObj {[ "ignored" := JBool true ]} |}.

(** A reply with a transport error and no response. *)
Definition failure (message : string) : NylasConnection.Reply :=
  {| NylasConnection.error := Some {| JS.message := message; JS.statusCode := None |};
     NylasConnection.response := None;
     NylasConnection.body := JUndefined |}.

(** A reply whose response carries the given [nylas-api-version]. *)
Definition versioned (version : string) (status : Z) (body : jsval)
    : NylasConnection.Reply :=
  {| NylasConnection.error := None;
     NylasConnection.response :=
       Some {| Response.statusCode := status;
               Response.headers := {[ "nylas-api-version" := version ]};
               Response.body := body |};
     NylasConnection.body := body |}.

(** A reply without transport error: a response with the given status and
    no headers, and the body. *)
Definition reply (status : Z) (body : jsval) : NylasConnection.Reply :=
  {| NylasConnection.error := None;
     NylasConnection.response :=
       Some {| Response.statusCode := status; Response.headers := ∅;
               Response.body := body |};
     NylasConnection.body := body |}.

(** A description that refers to a headers object and a query object. *)
Definition with_objects (path : string) (headers qs : option Heap.loc)
    : RequestOptions.t :=
  {| RequestOptions.path := path; RequestOptions.method := None;
     RequestOptions.headers := headers; RequestOptions.qs := qs;
     RequestOptions.downloadRequest := None; RequestOptions.json := None;
     RequestOptions.formData := JUndefined; RequestOptions.body := JUndefined |}.

Definition nylas : Nylas.t :=
  {| Nylas.clientId := "abc"; Nylas.settings := settings;
     Nylas.conn := None; Nylas.accounts := None |}.

(** The options of [urlForAuthentication], without login hint. *)
Definition authorize (redirectURI state : option string)
    (scopes : option (list string)) : AuthOptions.t :=
  {| AuthOptions.redirectURI := redirectURI; AuthOptions.loginHint := None;
     AuthOptions.state := state; AuthOptions.scopes := scopes |}.

End Sample.

(* ================================================================== *)
(** * Properties                                                       *)
(* ================================================================== *)

(** ** The version compatibility checker *)

Section VersionChecker.
Import JS NylasConnection.

Lemma differ_same (a : option string) : differ a a = false.
Proof. destruct a as [s|]; simpl; [now rewrite String.eqb_refl | reflexivity]. Qed.

Lemma differ_strings (s a : string) : s <> a -> differ (Some s) (Some a) = true.
Proof. intros Hne. simpl. now apply negb_true_iff, String.eqb_neq. Qed.

Lemma present_Some (s : string) : s <> "" -> present (Some s) = true.
Proof. intros Hne. unfold present; simpl. now apply negb_true_iff, String.eqb_neq. Qed.

Lemma present_false (o : option string) :
  present o = false <-> o = None \/ o = Some "".
Proof.
  unfold present. destruct o as [s|]; simpl.
  - rewrite negb_false_iff, String.eqb_eq. split.
    + intros ->. now right.
    + intros [H|H]; congruence.
  - split; [now left | reflexivity].
Qed.

(** [>] on numbers is irreflexive and asymmetric, and false against NaN. *)
Lemma gt_irrefl (a : number) : gt a a = false.
Proof. destruct a as [|z|[|]]; simpl; try reflexivity. apply Z.ltb_irrefl. Qed.

Lemma gt_asym (a b : number) : gt a b = true -> gt b a = false.
Proof.
  destruct a as [|x|[|]], b as [|y|[|]]; simpl; try congruence.
  rewrite !Z.ltb_lt, Z.ltb_ge. lia.
Qed.

Lemma gt_NaN_r (a : number) : gt a NaN = false.
Proof. now destruct a. Qed.

(** C5, amended.  The checker returns the empty string when the two
    versions are equal, or when either of them is absent or empty; for two
    different non-empty versions it returns the text naming both, followed
    by the dashboard hint exactly when the SDK's leading integer exceeds the
    server's, by the SDK hint exactly when the server's exceeds the SDK's,
    and by nothing when the integers are equal or one of them is NaN. *)
Theorem getWarningForVersion_cases (sdkApiVersion apiVersion : option string) :
  (sdkApiVersion = apiVersion ->
     _getWarningForVersion sdkApiVersion apiVersion = "") /\
  (present sdkApiVersion = false \/ present apiVersion = false ->
     _getWarningForVersion sdkApiVersion apiVersion = "") /\
  (forall sdk api,
     sdkApiVersion = Some sdk -> apiVersion = Some api ->
     sdk <> api -> sdk <> "" -> api <> "" ->
     let sdkNum := parseInt (before_dash sdk) in
     let apiNum := parseInt (before_dash api) in
     (gt sdkNum apiNum = true ->
        _getWarningForVersion sdkApiVersion apiVersion
        = mismatch_text sdk api +:+ dashboard_hint) /\
     (gt apiNum sdkNum = true ->
        _getWarningForVersion sdkApiVersion apiVersion
        = mismatch_text sdk api +:+ sdk_hint) /\
     (gt sdkNum apiNum = false -> gt apiNum sdkNum = false ->
        _getWarningForVersion sdkApiVersion apiVersion = mismatch_text sdk api) /\
     (sdkNum = apiNum \/ sdkNum = NaN \/ apiNum = NaN ->
        _getWarningForVersion sdkApiVersion apiVersion = mismatch_text sdk api)).
Proof.
  unfold _getWarningForVersion. split; [|split].
  - intros ->. now rewrite differ_same.
  - intros Habsent.
    destruct (differ sdkApiVersion apiVersion); [|reflexivity].
    destruct sdkApiVersion as [sdk|], apiVersion as [api|]; try reflexivity.
    destruct Habsent as [-> | ->]; [reflexivity | now rewrite andb_false_r].
  - intros sdk api -> -> Hne Hsdk Hapi.
    rewrite (differ_strings _ _ Hne), !present_Some by assumption.
    cbn [andb append].
    set (sdkNum := parseInt (before_dash sdk)).
    set (apiNum := parseInt (before_dash api)).
    repeat split.
    + now intros ->.
    + intros Hgt. now rewrite (gt_asym _ _ Hgt), Hgt.
    + now intros -> ->.
    + intros [Heq | [HNaN | HNaN]].
      * now rewrite Heq, gt_irrefl.
      * rewrite HNaN, gt_NaN_r. reflexivity.
      * rewrite HNaN, gt_NaN_r. reflexivity.
Qed.

End VersionChecker.

(** The two calls the specification gives as examples. *)
Example getWarningForVersion_dashboard :
  NylasConnection._getWarningForVersion (Some "2.1") (Some "1.5")
  = NylasConnection.mismatch_text "2.1" "1.5" +:+ NylasConnection.dashboard_hint.
Proof. reflexivity. Qed.

Example getWarningForVersion_sdk :
  NylasConnection._getWarningForVersion (Some "2.1") (Some "3.0")
  = NylasConnection.mismatch_text "2.1" "3.0" +:+ NylasConnection.sdk_hint.
Proof. reflexivity. Qed.

(** C5 as stated fails: with an empty SDK version and a server version
    that is present and different, the checker still returns the empty
    string. *)
Lemma getWarningForVersion_empty_sdk :
  NylasConnection._getWarningForVersion (Some "") (Some "2.1") = "".
Proof. reflexivity. Qed.

(** One call for each case of the checker. *)
Lemma getWarningForVersion_cases_witness :
  NylasConnection._getWarningForVersion (Some "2.1") (Some "2.1") = "" /\
  NylasConnection._getWarningForVersion (Some "2.1") None = "" /\
  NylasConnection._getWarningForVersion (Some "2.1") (Some "1.5-rc")
  = NylasConnection.mismatch_text "2.1" "1.5-rc" +:+ NylasConnection.dashboard_hint /\
  NylasConnection._getWarningForVersion (Some "2.1-beta") (Some "3.0")
  = NylasConnection.mismatch_text "2.1-beta" "3.0" +:+ NylasConnection.sdk_hint /\
  NylasConnection._getWarningForVersion (Some "2.1") (Some "2.1-beta")
  = NylasConnection.mismatch_text "2.1" "2.1-beta" /\
  NylasConnection._getWarningForVersion (Some "2.1") (Some "latest")
  = NylasConnection.mismatch_text "2.1" "latest".
Proof.
  refine (conj _ (conj _ (conj _ (conj _ (conj _ _))))).
  - destruct (getWarningForVersion_cases (Some "2.1") (Some "2.1")) as [Hsame _].
    now apply Hsame.
  - destruct (getWarningForVersion_cases (Some "2.1") None) as (_ & Habsent & _).
    apply Habsent. now right.
  - destruct (getWarningForVersion_cases (Some "2.1") (Some "1.5-rc"))
      as (_ & _ & Hcases).
    pose proof (Hcases "2.1" "1.5-rc" eq_refl eq_refl ltac:(discriminate)
                  ltac:(discriminate) ltac:(discriminate)) as (Hdashboard & _).
    now apply Hdashboard.
  - destruct (getWarningForVersion_cases (Some "2.1-beta") (Some "3.0"))
      as (_ & _ & Hcases).
    pose proof (Hcases "2.1-beta" "3.0" eq_refl eq_refl ltac:(discriminate)
                  ltac:(discriminate) ltac:(discriminate)) as (_ & Hsdk & _).
    now apply Hsdk.
  - destruct (getWarningForVersion_cases (Some "2.1") (Some "2.1-beta"))
      as (_ & _ & Hcases).
    pose proof (Hcases "2.1" "2.1-beta" eq_refl eq_refl ltac:(discriminate)
                  ltac:(discriminate) ltac:(discriminate)) as (_ & _ & Hneither & _).
    now apply Hneither.
  - destruct (getWarningForVersion_cases (Some "2.1") (Some "latest"))
      as (_ & _ & Hcases).
    pose proof (Hcases "2.1" "latest" eq_refl eq_refl ltac:(discriminate)
                  ltac:(discriminate) ltac:(discriminate)) as (_ & _ & _ & HNaN).
    apply HNaN. now right; right.
Defined.

(** ** Substrings *)

Section Substrings.

Lemma substring_prefix (t rest : string) :
  substring 0 (String.length t) (t +:+ rest) = t.
Proof.
  induction t as [|c t IH]; simpl.
  - now destruct rest.
  - now rewrite IH.
Qed.

Lemma substring_at (before t rest : string) :
  substring (String.length before) (String.length t) (before +:+ t +:+ rest) = t.
Proof.
  induction before as [|c before IH].
  - exact (substring_prefix t rest).
  - exact IH.
Qed.

Lemma substring_0_inv (t s : string) :
  substring 0 (String.length t) s = t -> exists rest, s = t +:+ rest.
Proof.
  revert s. induction t as [|c t IH]; intros s H; simpl in *.
  - now exists s.
  - destruct s as [|d s]; [discriminate|].
    injection H as -> H. destruct (IH _ H) as [rest ->]. now exists rest.
Qed.

Lemma substring_inv (m : nat) (t s : string) :
  t <> "" -> substring m (String.length t) s = t -> contains t s.
Proof.
  intros Ht. revert s. induction m as [|m IH]; intros s H.
  - destruct (substring_0_inv _ _ H) as [rest ->]. now exists "", rest.
  - destruct s as [|c s]; simpl in H.
    + now destruct (String.length t); subst t.
    + destruct (IH _ H) as (before & rest & ->). now exists (String c before), rest.
Qed.

(** [indexOf] finds nothing exactly when the text does not occur. *)
Lemma index_None_iff (t s : string) :
  t <> "" -> String.index 0 t s = None <-> ~ contains t s.
Proof.
  intros Ht. split.
  - intros Hnone (before & rest & ->).
    apply (index_correct3 0 (String.length before) _ _ Hnone Ht); [lia|].
    apply substring_at.
  - intros Hno. destruct (String.index 0 t s) as [m|] eqn:Hidx; [|reflexivity].
    exfalso. apply Hno, (substring_inv m); [assumption|].
    now apply index_correct1 in Hidx.
Qed.

End Substrings.

(** ** Nylas.config *)

Section Configure.
Import JS Nylas.

Lemma no_scheme_iff (s : string) : no_scheme s = true <-> ~ contains "://" s.
Proof.
  unfold no_scheme. rewrite <- index_None_iff by discriminate.
  destruct (String.index 0 "://" s); simpl; split; congruence.
Qed.

Lemma truthy_JStr (s : string) : s <> "" -> truthy (JStr s) = true.
Proof. intros Hne. simpl. now apply negb_true_iff, String.eqb_neq. Qed.

(** C7, amended.  [Nylas.config] throws when the [apiServer] passed is a
    non-empty string without [://].  Otherwise it returns normally; the
    stored [clientId] and [clientSecret] are the ones passed when these are
    not empty and are left as they were for an empty one, and the stored
    [apiServer] is the one passed, or the production URL when it is omitted
    or empty. *)
Theorem config_stores (args : ConfigArgs.t) (st : Nylas.t) :
  (forall server,
     ConfigArgs.apiServer args = Some server -> server <> "" ->
     ~ contains "://" server ->
     exists e, config args st = Throw (Thrown e)) /\
  ((forall server,
      ConfigArgs.apiServer args = Some server -> server <> "" ->
      contains "://" server) ->
   exists st',
     config args st = Normal st' /\
     clientId st' = kept (ConfigArgs.clientId args) (clientId st) /\
     clientSecret st' = kept (ConfigArgs.clientSecret args) (clientSecret st) /\
     apiServer st' =
       Some (kept (default "" (ConfigArgs.apiServer args)) production_server)).
Proof.
  destruct args as [id secret server]. unfold config; simpl. split.
  - intros s -> Hne Hno.
    rewrite present_Some by assumption. simpl.
    apply no_scheme_iff in Hno. rewrite Hno. eauto.
  - intros Hscheme.
    assert (Hguard : present server && no_scheme (default "" server) = false).
    { destruct server as [s|]; [|reflexivity]. unfold present. simpl.
      destruct (String.eqb_spec s "") as [->|Hne]; [reflexivity|]. simpl.
      apply not_true_is_false. rewrite no_scheme_iff. intros Hno.
      now apply Hno, Hscheme. }
    rewrite Hguard. eexists. split; [reflexivity|].
    unfold kept, clientSecret, apiServer, present.
    destruct server as [s|]; simpl;
      destruct (String.eqb id ""), (String.eqb secret "");
      try destruct (String.eqb s ""); simpl; auto.
Qed.

End Configure.

(** C7 as stated fails: configured again with empty values, [config]
    does not throw although the [apiServer] passed has no [://], and it
    keeps the stored [clientId] and [clientSecret] instead of storing the
    ones passed. *)
Lemma config_keeps_on_empty :
  Nylas.config
    {| ConfigArgs.clientId := ""; ConfigArgs.clientSecret := "";
       ConfigArgs.apiServer := Some "" |}
    {| Nylas.clientId := "abc";
       Nylas.settings := {| config.apiServer := Some "https://old.example.com";
                            config.clientSecret := "s3cr3t" |};
       Nylas.conn := None; Nylas.accounts := None |}
  = JS.Normal
      {| Nylas.clientId := "abc";
         Nylas.settings := {| config.apiServer := Some "https://api.nylas.com";
                              config.clientSecret := "s3cr3t" |};
         Nylas.conn := Some {| NylasConnection.accessToken := Some "s3cr3t";
                               NylasConnection.clientId := Some "abc" |};
         Nylas.accounts := Some Nylas.ManagementAccounts |}.
Proof. reflexivity. Qed.

(** The two calls of the specification: a server without scheme is
    refused, a server with one is retained. *)
Example config_refuses_bare_host :
  forall st,
    Nylas.config
      {| ConfigArgs.clientId := "abc"; ConfigArgs.clientSecret := "s3cr3t";
         ConfigArgs.apiServer := Some "api.example.com" |} st
    = JS.Throw (JS.Thrown (JS.new_Error
        (JS.JStr "Please specify a fully qualified URL for the API Server."))).
Proof. reflexivity. Qed.

Lemma config_stores_witness :
  (exists e,
     Nylas.config
       {| ConfigArgs.clientId := "abc"; ConfigArgs.clientSecret := "s3cr3t";
          ConfigArgs.apiServer := Some "api.example.com" |} Sample.nylas
     = JS.Throw (JS.Thrown e)) /\
  (exists st',
     Nylas.config
       {| ConfigArgs.clientId := "abc"; ConfigArgs.clientSecret := "s3cr3t";
          ConfigArgs.apiServer := Some "https://api.example.com" |}
       {| Nylas.clientId := "";
          Nylas.settings := {| config.apiServer := None; config.clientSecret := "" |};
          Nylas.conn := None; Nylas.accounts := None |}
     = JS.Normal st' /\
     Nylas.clientId st' = "abc" /\
     Nylas.clientSecret st' = "s3cr3t" /\
     Nylas.apiServer st' = Some "https://api.example.com").
Proof.
  split.
  - destruct (config_stores
                {| ConfigArgs.clientId := "abc"; ConfigArgs.clientSecret := "s3cr3t";
                   ConfigArgs.apiServer := Some "api.example.com" |} Sample.nylas)
      as [Hthrows _].
    apply (Hthrows "api.example.com"); [reflexivity | discriminate |].
    now apply no_scheme_iff.
  - destruct (config_stores
                {| ConfigArgs.clientId := "abc"; ConfigArgs.clientSecret := "s3cr3t";
                   ConfigArgs.apiServer := Some "https://api.example.com" |}
                {| Nylas.clientId := "";
                   Nylas.settings :=
                     {| config.apiServer := None; config.clientSecret := "" |};
                   Nylas.conn := None; Nylas.accounts := None |})
      as [_ Hstores].
    apply Hstores. intros server [= <-] _.
    now exists "https", "api.example.com".
Defined.

(** ** Nylas.urlForAuthentication *)

Section AuthorizationUrl.
Import JS Nylas.

Lemma append_nil_r (s : string) : s +:+ "" = s.
Proof.
  induction s as [|c s IH]; [reflexivity|].
  change (String c (s +:+ "") = String c s). now f_equal.
Qed.

Lemma append_assoc (a b c : string) : (a +:+ b) +:+ c = a +:+ b +:+ c.
Proof.
  induction a as [|x a IH]; [reflexivity|].
  change (String x ((a +:+ b) +:+ c) = String x (a +:+ b +:+ c)). now f_equal.
Qed.

(** C8.  [urlForAuthentication] throws when no client id is configured or
    no redirect URI is passed (a missing or an empty one).  Otherwise it
    returns the API server, [/oauth/authorize?client_id=], the client id,
    [&response_type=code&login_hint=], the login hint (empty when missing),
    [&redirect_uri=] and the redirect URI, then [&state=] and the state
    exactly when a state was passed, then [&scopes=] and the scopes joined
    by commas exactly when a list of scopes was passed; every component is
    copied as it is. *)
Theorem urlForAuthentication_url (st : Nylas.t) (options : AuthOptions.t) :
  (clientId st = "" ->
     exists e, urlForAuthentication st options = Throw (Thrown e)) /\
  (present (AuthOptions.redirectURI options) = false ->
     exists e, urlForAuthentication st options = Throw (Thrown e)) /\
  (forall redirectURI,
     clientId st <> "" ->
     AuthOptions.redirectURI options = Some redirectURI -> redirectURI <> "" ->
     exists options',
       urlForAuthentication st options =
       Normal
         (config.apiServer_text (settings st) +:+ "/oauth/authorize?client_id=" +:+
          clientId st +:+ "&response_type=code&login_hint=" +:+
          default "" (AuthOptions.loginHint options) +:+
          "&redirect_uri=" +:+ redirectURI +:+
          match AuthOptions.state options with
          | Some state => "&state=" +:+ state
          | None => ""
          end +:+
          match AuthOptions.scopes options with
          | Some scopes => "&scopes=" +:+ join_with "," scopes
          | None => ""
          end, options')).
Proof.
  unfold urlForAuthentication. repeat split.
  - intros ->. simpl. eauto.
  - intros Hmissing. destruct (truthy (JStr (clientId st))); simpl; [|eauto].
    apply present_false in Hmissing as [-> | ->]; simpl; eauto.
  - intros redirectURI Hid -> Huri.
    rewrite !truthy_JStr by assumption. simpl.
    eexists. do 2 f_equal.
    destruct (AuthOptions.loginHint options) as [hint|],
             (AuthOptions.state options) as [state|],
             (AuthOptions.scopes options) as [scopes|]; simpl;
      repeat first [rewrite append_assoc | rewrite append_nil_r];
      reflexivity.
Qed.

End AuthorizationUrl.

Lemma urlForAuthentication_url_witness :
  (exists e,
     Nylas.urlForAuthentication
       {| Nylas.clientId := ""; Nylas.settings := Sample.settings;
          Nylas.conn := None; Nylas.accounts := None |}
       (Sample.authorize (Some "https://x/cb") None None)
     = JS.Throw (JS.Thrown e)) /\
  (exists e,
     Nylas.urlForAuthentication Sample.nylas (Sample.authorize None None None)
     = JS.Throw (JS.Thrown e)) /\
  (exists options',
     Nylas.urlForAuthentication Sample.nylas
       (Sample.authorize (Some "https://x/cb") None None)
     = JS.Normal
         ("https://api.nylas.com/oauth/authorize?client_id=abc&response_type=code&login_hint=&redirect_uri=https://x/cb",
          options')) /\
  (exists options',
     Nylas.urlForAuthentication Sample.nylas
       (Sample.authorize (Some "https://x/cb") (Some "s t") (Some ["a"; "b"]))
     = JS.Normal
         ("https://api.nylas.com/oauth/authorize?client_id=abc&response_type=code&login_hint=&redirect_uri=https://x/cb&state=s t&scopes=a,b",
          options')).
Proof.
  refine (conj _ (conj _ (conj _ _))).
  - destruct (urlForAuthentication_url
                {| Nylas.clientId := ""; Nylas.settings := Sample.settings;
                   Nylas.conn := None; Nylas.accounts := None |}
                (Sample.authorize (Some "https://x/cb") None None))
      as (Hunconfigured & _).
    now apply Hunconfigured.
  - destruct (urlForAuthentication_url Sample.nylas (Sample.authorize None None None))
      as (_ & Hmissing & _).
    now apply Hmissing.
  - destruct (urlForAuthentication_url Sample.nylas
                (Sample.authorize (Some "https://x/cb") None None))
      as (_ & _ & Hurl).
    destruct (Hurl "https://x/cb") as [options' Heq];
      [discriminate | reflexivity | discriminate |].
    exists options'. exact Heq.
  - destruct (urlForAuthentication_url Sample.nylas
                (Sample.authorize (Some "https://x/cb") (Some "s t") (Some ["a"; "b"])))
      as (_ & _ & Hurl).
    destruct (Hurl "https://x/cb") as [options' Heq];
      [discriminate | reflexivity | discriminate |].
    exists options'. exact Heq.
Defined.

(** State and scopes are appended as they are, also when they are empty or
    hold characters a URL would need escaped. *)
Example urlForAuthentication_state_scopes :
  forall st' : AuthOptions.t,
  st' = {| AuthOptions.redirectURI := Some "https://x/cb?a=b&c";
           AuthOptions.loginHint := Some "me@x.org"; AuthOptions.state := Some "";
           AuthOptions.scopes := Some ["email.read_only"; "calendar"] |} ->
  Nylas.urlForAuthentication
    {| Nylas.clientId := "abc";
       Nylas.settings := {| config.apiServer := Some "https://api.nylas.com";
                            config.clientSecret := "" |};
       Nylas.conn := None; Nylas.accounts := None |} st'
  = JS.Normal
      ("https://api.nylas.com/oauth/authorize?client_id=abc&response_type=code&login_hint=me@x.org&redirect_uri=https://x/cb?a=b&c&state=&scopes=email.read_only,calendar",
       st').
Proof. intros st' ->. reflexivity. Qed.

(** ** Nylas.exchangeCodeForToken *)

Section CodeExchange.
Import JS Nylas.






End CodeExchange.



(** ** NylasConnection.request: settling the promise *)

Section Request.
Import JS Heap NylasConnection.

Variable SDK_VERSION : string.
Variable JSON_parse : string -> completion jsval.

(** The fields of the transport options that do not involve the heap. *)
Lemma requestOptions_json (c : config.t) (conn : NylasConnection.t)
    (options : RequestOptions.t) (h : heap) :
  CoreOptions.json (requestOptions SDK_VERSION c conn options h).1
  = default true (RequestOptions.json options).
Proof.
  unfold requestOptions.
  destruct (match RequestOptions.headers options with
            | Some l => (l, h) | None => alloc ∅ h end) as [lh h1].
  destruct (truthy (RequestOptions.formData options)).
  all: destruct (copy_qs options h1) as [qs h2]; reflexivity.
Qed.

Lemma request_outcome (c : config.t) (conn : NylasConnection.t)
    (options : RequestOptions.t) (h : heap) (reply : Reply) :
  request SDK_VERSION JSON_parse c conn options h reply
  = (requestOptions SDK_VERSION c conn options h,
     complete JSON_parse options
       (requestOptions SDK_VERSION c conn options h).1 reply).
Proof.
  unfold request. now destruct (requestOptions SDK_VERSION c conn options h).
Qed.

(** When the description does not set [json] to false, the body is used as
    the transport delivered it ([{}] for an undefined one). *)
Lemma parsed_body_as_is (resolvedOptions : CoreOptions.t) (body : jsval) :
  CoreOptions.json resolvedOptions = true ->
  parsed_body JSON_parse resolvedOptions body
  = Normal (default_body body).
Proof. unfold parsed_body. now intros ->. Qed.

Lemma json_not_false (options : RequestOptions.t) :
  RequestOptions.json options <> Some false ->
  default true (RequestOptions.json options) = true.
Proof. destruct (RequestOptions.json options) as [[|]|]; simpl; congruence. Qed.

(** X18.  When the transport reports no error and a response whose status
    code is at most 299, and the body the callback works on is obtained
    without an exception, the promise is resolved: with the response object
    when the description sets [downloadRequest], with the parsed body
    otherwise.  Unless the description sets [json] to false, the body is
    always obtained, and is the body the transport delivered; when it does,
    it is the value [JSON.parse] returns for it, if it returns one. *)
Theorem request_resolves (c : config.t) (conn : NylasConnection.t)
    (options : RequestOptions.t) (h : heap) (reply : Reply)
    (response : Response.t)
    (resolvedOptions : CoreOptions.t) (h' : heap) (outcome : Outcome) :
  request SDK_VERSION JSON_parse c conn options h reply
  = (resolvedOptions, h', outcome) ->
  error reply = None ->
  NylasConnection.response reply = Some response ->
  Response.statusCode response <= 299 ->
  (forall parsed,
     parsed_body JSON_parse resolvedOptions (body reply) = Normal parsed ->
     promise outcome
     = Normal (Resolved
         (if default false (RequestOptions.downloadRequest options)
          then FullResponse response else Body parsed))) /\
  (RequestOptions.json options <> Some false ->
     parsed_body JSON_parse resolvedOptions (body reply)
     = Normal (default_body (body reply))).
Proof.
  rewrite request_outcome. intros [= Hoptions <-].
  assert (Hjson := requestOptions_json c conn options h).
  rewrite Hoptions in Hjson |- *. cbn [fst] in Hjson |- *.
  intros Herror Hresponse Hstatus. split.
  - intros parsed Hparsed.
    unfold complete. rewrite Hresponse, Herror, Hparsed. cbn [promise given orb]; run.
    apply Z.ltb_ge in Hstatus. rewrite Hstatus.
    now destruct (default false (RequestOptions.downloadRequest options)).
  - intros Hnot. apply parsed_body_as_is. rewrite Hjson. now apply json_not_false.
Qed.

(** The error of a failed request, for a body that is not [null]. *)
Lemma enrich_error (error : option Error) (response : Response.t) (body : jsval) :
  nullish body = false ->
  enrich error response body =
  Normal
    {| message :=
         (let first :=
            if truthy (field body "missing_fields")
            then ToString (field body "message") +:+ ": " +:+
                 ToString (field body "missing_fields")
            else match error with
                 | Some e => message e
                 | None => message (new_Error (field body "message"))
                 end in
          if truthy (field body "server_error")
          then first +:+ " (Server Error:" +:+ LF +:+ "              " +:+
               ToString (field body "server_error") +:+ LF +:+ "            )"
          else first);
       statusCode :=
         if Response.statusCode response =? 0
         then match error with Some e => statusCode e | None => None end
         else Some (Response.statusCode response) |}.
Proof.
  intros Hbody. unfold enrich.
  assert (Hget : forall k, Get body k = Normal (field body k))
    by (intros k; destruct body; try discriminate Hbody; reflexivity).
  rewrite !Hget. run.
  destruct error as [[m sc]|]; run;
    destruct (truthy (field body "missing_fields")); run;
    destruct (truthy (field body "server_error"));
    destruct (Response.statusCode response =? 0); reflexivity.
Qed.

(** When the transport reports an error or a status code above 299, and
    the body is not [null] after parsing, the promise is rejected with
    that error. *)
Lemma request_rejects (c : config.t) (conn : NylasConnection.t)
    (options : RequestOptions.t) (h : heap) (reply : Reply)
    (response : Response.t) (parsed : jsval) :
  NylasConnection.response reply = Some response ->
  given (error reply) = true \/ 299 < Response.statusCode response ->
  parsed_body JSON_parse (requestOptions SDK_VERSION c conn options h).1 (body reply)
  = Normal parsed ->
  nullish parsed = false ->
  exists e,
    enrich (error reply) response parsed = Normal e /\
    promise (request SDK_VERSION JSON_parse c conn options h reply).2
    = Normal (Rejected e).
Proof.
  intros Hresponse Hfailed Hparsed Hbody.
  rewrite request_outcome. cbn [snd]. unfold complete.
  rewrite Hresponse, Hparsed. cbn [promise]; run.
  assert (Hguard : given (error reply) || (299 <? Response.statusCode response) = true).
  { destruct Hfailed as [-> | Hstatus]; [reflexivity|].
    apply Z.ltb_lt in Hstatus. rewrite Hstatus. apply orb_true_r. }
  rewrite Hguard, (enrich_error _ _ _ Hbody). run. eauto.
Qed.

(** X9.  When there is a response, the description sets [json] to false
    and [JSON.parse] throws on the body the transport delivered, the
    callback throws that exception before it settles the promise, whatever
    the status code and the transport error are. *)
Lemma request_parse_failure (c : config.t) (conn : NylasConnection.t)
    (options : RequestOptions.t) (h : heap) (reply : Reply)
    (response : Response.t) (e : exn) :
  RequestOptions.json options = Some false ->
  NylasConnection.response reply = Some response ->
  JSON_parse (ToString (default_body (body reply))) = Throw e ->
  promise (request SDK_VERSION JSON_parse c conn options h reply).2 = Throw e.
Proof.
  intros Hjson Hresponse Hparse.
  rewrite request_outcome. cbn [snd]. unfold complete, parsed_body.
  rewrite Hresponse, requestOptions_json, Hjson. cbn [default negb promise].
  now rewrite Hparse.
Qed.

End Request.

(** The request of the specification: status 200, body [{foo: 1}], no
    [downloadRequest]; the promise is resolved with the body.  A download
    is resolved with the response.  A raw message sent with [json] false
    is resolved with the body as [JSON.parse] read it. *)
Lemma request_resolves_witness :
  NylasConnection.promise
    (NylasConnection.request Sample.sdk_version JSON.parse Sample.settings
       Sample.connection (Sample.get "/messages") ∅
       (Sample.reply 200 (JS.JObj {[ "foo" := JS.JNum 1 ]}))).2
  = JS.Normal (NylasConnection.Resolved
                 (NylasConnection.Body (JS.JObj {[ "foo" := JS.JNum 1 ]}))) /\
  NylasConnection.promise
    (NylasConnection.request Sample.sdk_version JSON.parse Sample.settings
       Sample.connection (Sample.download "/files/f1/download") ∅
       (Sample.reply 200 (JS.JStr "%PDF-1.4"))).2
  = JS.Normal (NylasConnection.Resolved
                 (NylasConnection.FullResponse
                    {| Response.statusCode := 200; Response.headers := ∅;
                       Response.body := JS.JStr "%PDF-1.4" |})) /\
  NylasConnection.promise
    (NylasConnection.request Sample.sdk_version JSON.parse Sample.settings
       Sample.connection (Sample.send_raw "From: a@b.c") ∅
       (Sample.reply 200 (JS.JStr "[1, true, null]"))).2
  = JS.Normal (NylasConnection.Resolved
                 (NylasConnection.Body
                    (JS.JArr [JS.JNum 1; JS.JBool true; JS.JNull]))).
Proof.
  refine (conj _ (conj _ _)).
  - edestruct (request_resolves Sample.sdk_version JSON.parse Sample.settings
                 Sample.connection (Sample.get "/messages") ∅
                 (Sample.reply 200 (JS.JObj {[ "foo" := JS.JNum 1 ]})))
      as [Hresolved Hparsed];
      [reflexivity | reflexivity | reflexivity | simpl; lia |].
    apply Hresolved, Hparsed. discriminate.
  - edestruct (request_resolves Sample.sdk_version JSON.parse Sample.settings
                 Sample.connection (Sample.download "/files/f1/download") ∅
                 (Sample.reply 200 (JS.JStr "%PDF-1.4")))
      as [Hresolved Hparsed];
      [reflexivity | reflexivity | reflexivity | simpl; lia |].
    apply (Hresolved (JS.JStr "%PDF-1.4")), Hparsed. discriminate.
  - edestruct (request_resolves Sample.sdk_version JSON.parse Sample.settings
                 Sample.connection (Sample.send_raw "From: a@b.c") ∅
                 (Sample.reply 200 (JS.JStr "[1, true, null]")))
      as [Hresolved _];
      [reflexivity | reflexivity | reflexivity | simpl; lia |].
    apply Hresolved. reflexivity.
Defined.

(** The failed request of the specification: status 404 and a body with
    [message] and [missing_fields]. *)
Example request_missing_fields :
  NylasConnection.promise
    (NylasConnection.request Sample.sdk_version JSON.parse Sample.settings
       Sample.connection (Sample.get "/messages") ∅
       (Sample.reply 404
          (JS.JObj {[ "message" := JS.JStr "not found";
                      "missing_fields" := JS.JArr [JS.JStr "x"] ]}))).2
  = JS.Normal (NylasConnection.Rejected
                 {| JS.message := "not found: x"; JS.statusCode := Some 404 |}).
Proof. reflexivity. Qed.

(** C4 at a body with [server_error]: the message of the rejection holds
    the line break and the indentation of the template literal in the
    source, not [boom (Server Error: db)]. *)
Example request_server_error :
  NylasConnection.promise
    (NylasConnection.request Sample.sdk_version JSON.parse Sample.settings
       Sample.connection (Sample.get "/messages") ∅
       (Sample.reply 500
          (JS.JObj {[ "message" := JS.JStr "boom";
                      "server_error" := JS.JStr "db" ]}))).2
  = JS.Normal (NylasConnection.Rejected
                 {| JS.message :=
                      "boom (Server Error:" +:+ JS.LF +:+
                      "              db" +:+ JS.LF +:+
                      "            )";
                    JS.statusCode := Some 500 |}).
Proof. reflexivity. Qed.

(** A failed request whose body is [null]: reading [body.message] throws,
    and the promise is never settled. *)
Example request_null_body :
  NylasConnection.promise
    (NylasConnection.request Sample.sdk_version JSON.parse Sample.settings
       Sample.connection (Sample.get "/messages") ∅
       (Sample.reply 500 JS.JNull)).2
  = JS.Throw JS.TypeError.
Proof. reflexivity. Qed.

(** C3 at a raw message sent with [json] false: the transport reports no
    error and a response of status 200 whose body is the text [OK].  The
    claim has the promise resolved; [JSON.parse] throws on the body inside
    the callback, and neither [resolve] nor [reject] is called. *)
Example request_success_not_resolved :
  NylasConnection.promise
    (NylasConnection.request Sample.sdk_version JSON.parse Sample.settings
       Sample.connection (Sample.send_raw "From: a@b.c") ∅
       (Sample.reply 200 (JS.JStr "OK"))).2
  = JS.Throw JS.SyntaxError.
Proof. reflexivity. Qed.

(** C10 at a raw message sent with [json] false: the transport reports no
    error and a response of status 502 whose body is a page of HTML.  The
    claim has the promise rejected with a parse error; [JSON.parse] throws
    inside the callback, and neither [resolve] nor [reject] is called. *)
Example request_unparsable_body :
  NylasConnection.promise
    (NylasConnection.request Sample.sdk_version JSON.parse Sample.settings
       Sample.connection (Sample.send_raw "From: a@b.c") ∅
       (Sample.reply 502 (JS.JStr "<html>Bad Gateway</html>"))).2
  = JS.Throw JS.SyntaxError.
Proof. reflexivity. Qed.

(** ** NylasConnection.requestOptions: the heap *)

Section HeapFacts.
Import JS Heap.

Lemma alloc_fresh (o : gmap string jsval) (h : heap) : h !! (alloc o h).1 = None.
Proof. apply not_elem_of_dom, is_fresh. Qed.

Lemma alloc_heap (o : gmap string jsval) (h : heap) :
  (alloc o h).2 = <[(alloc o h).1 := o]> h.
Proof. reflexivity. Qed.

Lemma set_prop_lookup (l l' : loc) (k : string) (v : jsval) (h : heap) :
  set_prop l k v h !! l'
  = if decide (l = l') then insert k v <$> h !! l else h !! l'.
Proof. apply lookup_alter. Qed.

Lemma set_prop_insert (l : loc) (k : string) (v : jsval)
    (o : gmap string jsval) (h : heap) :
  set_prop l k v (<[l := o]> h) = <[l := <[k := v]> o]> h.
Proof.
  apply map_eq. intros l'. rewrite set_prop_lookup.
  destruct (decide (l = l')) as [<-|Hne].
  - now rewrite !lookup_insert_eq.
  - now rewrite !lookup_insert_ne.
Qed.

Lemma delete_prop_insert (l : loc) (k : string) (o : gmap string jsval) (h : heap) :
  delete_prop l k (<[l := o]> h) = <[l := delete k o]> h.
Proof.
  apply map_eq. intros l'. unfold delete_prop. rewrite lookup_alter.
  destruct (decide (l = l')) as [<-|Hne].
  - now rewrite !lookup_insert_eq.
  - now rewrite !lookup_insert_ne.
Qed.

Lemma get_prop_insert (l : loc) (k : string) (o : gmap string jsval) (h : heap) :
  get_prop (<[l := o]> h) l k = default JUndefined (o !! k).
Proof. unfold get_prop. now rewrite lookup_insert_eq. Qed.

End HeapFacts.

Section RequestOptionsFacts.
Import JS Heap NylasConnection.

Variable SDK_VERSION : string.

(** The headers object after the writes of [requestOptions]. *)
Lemma set_headers_lookup (conn : NylasConnection.t) (lh l : loc) (h : heap) :
  set_headers SDK_VERSION conn lh h !! l =
  if decide (lh = l) then
    (fun o : gmap string jsval =>
       <["X-Nylas-Client-Id" := of_option (clientId conn)]>
         (<["Nylas-SDK-API-Version" := JStr SUPPORTED_API_VERSION]>
            (<["Nylas-API-Version" := JStr SUPPORTED_API_VERSION]>
               (if nullish (default JUndefined (o !! "User-Agent"))
                then <["User-Agent" := JStr ("Nylas Node SDK v" +:+ SDK_VERSION)]> o
                else o)))) <$> h !! lh
  else h !! l.
Proof.
  unfold set_headers, get_prop.
  destruct (decide (lh = l)) as [<-|Hne].
  - destruct (h !! lh) as [o|] eqn:Ho;
      cbn [mbind option_bind default fmap option_fmap option_map].
    + destruct (nullish (default JUndefined (o !! "User-Agent")));
        rewrite !set_prop_lookup, !decide_True, ?Ho by reflexivity; reflexivity.
    + cbn [nullish]. rewrite !set_prop_lookup, !decide_True, Ho by reflexivity.
      reflexivity.
  - destruct (nullish _); rewrite !set_prop_lookup, !decide_False by assumption;
      reflexivity.
Qed.

(** The query object of the new options is a new object. *)
Lemma copy_qs_Some (options : RequestOptions.t) (h : heap) (l : loc)
    (q : gmap string jsval) :
  RequestOptions.qs options = Some l -> h !! l = Some q ->
  copy_qs options h =
  (Some (fresh (dom h)),
   <[fresh (dom h) :=
       let expanded := default JUndefined (q !! "expanded") in
       if truthy expanded then
         delete "expanded"
           (if is_true expanded then <["view" := JStr "expanded"]> q else q)
       else q]> h).
Proof.
  intros Hqs Hq. unfold copy_qs, alloc. rewrite Hqs, Hq. cbn [default from_option id].
  rewrite get_prop_insert.
  destruct (truthy (default JUndefined (q !! "expanded"))); [|reflexivity].
  destruct (is_true (default JUndefined (q !! "expanded"))).
  - now rewrite set_prop_insert, delete_prop_insert.
  - now rewrite delete_prop_insert.
Qed.

Lemma copy_qs_None (options : RequestOptions.t) (h : heap) :
  RequestOptions.qs options = None -> copy_qs options h = (None, h).
Proof. unfold copy_qs. now intros ->. Qed.

(** The transport options and the heap [requestOptions] returns, in terms
    of the headers object [lh] it uses and of the heap [h1] in which that
    object exists. *)
Lemma requestOptions_heap (c : config.t) (conn : NylasConnection.t)
    (options : RequestOptions.t) (h : heap) :
  let '(lh, h1) :=
    match RequestOptions.headers options with
    | Some l => (l, h)
    | None => alloc ∅ h
    end in
  CoreOptions.headers (requestOptions SDK_VERSION c conn options h).1 = lh /\
  CoreOptions.qs (requestOptions SDK_VERSION c conn options h).1
  = (copy_qs options h1).1 /\
  (requestOptions SDK_VERSION c conn options h).2
  = set_headers SDK_VERSION conn lh (copy_qs options h1).2.
Proof.
  unfold requestOptions.
  destruct (match RequestOptions.headers options with
            | Some l => (l, h) | None => alloc ∅ h end) as [lh h1].
  destruct (truthy (RequestOptions.formData options)).
  all: destruct (copy_qs options h1) as [qs h2]; auto.
Qed.

Lemma requestOptions_auth_field (c : config.t) (conn : NylasConnection.t)
    (options : RequestOptions.t) (h : heap) :
  CoreOptions.auth (requestOptions SDK_VERSION c conn options h).1
  = match credential c conn options with
    | Some u =>
        if String.eqb u "" then None
        else Some {| Auth.user := u; Auth.pass := ""; Auth.sendImmediately := true |}
    | None => None
    end.
Proof.
  unfold requestOptions.
  destruct (match RequestOptions.headers options with
            | Some l => (l, h) | None => alloc ∅ h end) as [lh h1].
  destruct (truthy (RequestOptions.formData options)).
  all: destruct (copy_qs options h1) as [qs h2]; cbn [fst CoreOptions.auth].
  all: destruct (credential c conn options) as [u|]; [|reflexivity].
  all: unfold present; simpl; now destruct (String.eqb u "").
Qed.

Lemma credential_prefix (c : config.t) (conn : NylasConnection.t)
    (options : RequestOptions.t) :
  credential c conn options
  = if String.prefix "/a/" (RequestOptions.path options)
    then Some (config.clientSecret c) else accessToken conn.
Proof.
  unfold credential.
  destruct (String.prefix "/a/" (RequestOptions.path options)) eqn:Hprefix.
  - apply prefix_correct in Hprefix. simpl in Hprefix. now rewrite Hprefix.
  - destruct (String.eqb_spec (substring 0 3 (RequestOptions.path options)) "/a/")
      as [Heq|]; [|reflexivity].
    apply (prefix_correct "/a/") in Heq. congruence.
Qed.

(** C1.  The credential of a request is the configured client secret when
    the path starts with [/a/], whatever the access token of the connection,
    and the access token otherwise.  When that credential is a non-empty
    string, the options carry it as [auth.user], with an empty password and
    [sendImmediately]; when it is absent (missing or empty) they carry no
    [auth].  [requestOptions] is a total function: it raises nothing. *)
Theorem requestOptions_auth (c : config.t) (conn : NylasConnection.t)
    (options : RequestOptions.t) (h : heap)
    (newOptions : CoreOptions.t) (h' : heap) :
  requestOptions SDK_VERSION c conn options h = (newOptions, h') ->
  let selected :=
    if String.prefix "/a/" (RequestOptions.path options)
    then Some (config.clientSecret c) else accessToken conn in
  (forall user, selected = Some user -> user <> "" ->
     CoreOptions.auth newOptions
     = Some {| Auth.user := user; Auth.pass := ""; Auth.sendImmediately := true |}) /\
  (selected = None \/ selected = Some "" -> CoreOptions.auth newOptions = None).
Proof.
  intros Hrun selected.
  assert (Hauth := requestOptions_auth_field c conn options h).
  rewrite Hrun, credential_prefix in Hauth. cbn [fst] in Hauth. fold selected in Hauth.
  rewrite Hauth. split.
  - intros user -> Hne. apply String.eqb_neq in Hne. now rewrite Hne.
  - now intros [-> | ->].
Qed.

(** C2, amended.  When the description has a query object, the options
    refer to a new object, a copy of it in which: an [expanded] equal to
    [true] is replaced by [view = 'expanded']; any other truthy [expanded]
    is deleted and nothing else changes; a falsy [expanded] ([false], [0],
    [''], [null], [undefined]) or a missing one leaves the copy equal to the
    caller's object, [expanded] included. *)
Theorem requestOptions_qs (c : config.t) (conn : NylasConnection.t)
    (options : RequestOptions.t) (h : heap) (l : loc) (q : gmap string jsval)
    (newOptions : CoreOptions.t) (h' : heap) :
  RequestOptions.qs options = Some l -> h !! l = Some q ->
  (forall lh, RequestOptions.headers options = Some lh -> is_Some (h !! lh)) ->
  requestOptions SDK_VERSION c conn options h = (newOptions, h') ->
  exists lq sent,
    CoreOptions.qs newOptions = Some lq /\ h !! lq = None /\
    h' !! lq = Some sent /\
    (q !! "expanded" = Some (JBool true) ->
       sent = delete "expanded" (<["view" := JStr "expanded"]> q)) /\
    (forall v, q !! "expanded" = Some v -> truthy v = true -> is_true v = false ->
       sent = delete "expanded" q) /\
    (forall v, q !! "expanded" = Some v -> truthy v = false -> sent = q) /\
    (q !! "expanded" = None -> sent = q).
Proof.
  intros Hqs Hq Hheaders Hrun.
  assert (Hheap := requestOptions_heap c conn options h).
  rewrite Hrun in Hheap. cbn [fst snd] in Hheap.
  destruct (RequestOptions.headers options) as [lh0|] eqn:Hh.
  - destruct Hheap as (Hlh & Hnewqs & ->).
    rewrite (copy_qs_Some options h l q Hqs Hq) in *. cbn [fst snd] in *.
    set (lq := fresh (dom h)) in *.
    assert (Hfresh : h !! lq = None) by apply not_elem_of_dom, is_fresh.
    assert (Hne : lh0 <> lq).
    { intros ->. destruct (Hheaders lq eq_refl) as [o Ho]. congruence. }
    eexists lq, _. split; [exact Hnewqs|]. split; [exact Hfresh|].
    split; [now rewrite set_headers_lookup, decide_False, lookup_insert_eq|].
    repeat split.
    + now intros ->.
    + intros v -> Htruthy Htrue. cbn [default from_option id]. now rewrite Htruthy, Htrue.
    + intros v -> Hfalsy. cbn [default from_option id]. now rewrite Hfalsy.
    + now intros ->.
  - cbv [alloc] in Hheap. destruct Hheap as (Hlh & Hnewqs & ->).
    set (lh := fresh (dom h)) in *.
    assert (Hlh_fresh : h !! lh = None) by apply not_elem_of_dom, is_fresh.
    assert (Hl : l <> lh) by congruence.
    assert (Hq1 : <[lh := ∅]> h !! l = Some q) by now rewrite lookup_insert_ne.
    rewrite (copy_qs_Some options _ l q Hqs Hq1) in *. cbn [fst snd] in *.
    set (lq := fresh (dom (<[lh := ∅]> h))) in *.
    assert (Hfresh : <[lh := ∅]> h !! lq = None) by apply not_elem_of_dom, is_fresh.
    assert (Hne : lh <> lq).
    { intros Heq. rewrite <- Heq, lookup_insert_eq in Hfresh. discriminate. }
    rewrite lookup_insert_ne in Hfresh by assumption.
    eexists lq, _. split; [exact Hnewqs|]. split; [exact Hfresh|].
    split; [now rewrite set_headers_lookup, decide_False, lookup_insert_eq|].
    repeat split.
    + now intros ->.
    + intros v -> Htruthy Htrue. cbn [default from_option id]. now rewrite Htruthy, Htrue.
    + intros v -> Hfalsy. cbn [default from_option id]. now rewrite Hfalsy.
    + now intros ->.
Qed.

(** Copying the query object leaves every object of the heap as it was. *)
Lemma copy_qs_frame (options : RequestOptions.t) (h : heap) (l : loc) :
  is_Some (h !! l) -> (copy_qs options h).2 !! l = h !! l.
Proof.
  intros [o Ho]. unfold copy_qs.
  destruct (RequestOptions.qs options) as [l0|]; [|reflexivity].
  unfold alloc. set (lq := fresh (dom h)).
  assert (Hfresh : h !! lq = None) by apply not_elem_of_dom, is_fresh.
  assert (Hne : lq <> l) by congruence.
  cbn [snd].
  destruct (truthy _); [destruct (is_true _)|];
    unfold delete_prop;
    rewrite ?lookup_alter_ne, ?set_prop_lookup, ?decide_False, ?lookup_insert_ne
      by assumption; reflexivity.
Qed.

(** The headers object of the caller after the call: [requestOptions]
    writes its four headers into it. *)
Lemma requestOptions_writes_headers (c : config.t) (conn : NylasConnection.t)
    (options : RequestOptions.t) (h : heap) (lh : loc) (o : gmap string jsval) :
  RequestOptions.headers options = Some lh -> h !! lh = Some o ->
  (requestOptions SDK_VERSION c conn options h).2 !! lh
  = Some (<["X-Nylas-Client-Id" := of_option (clientId conn)]>
            (<["Nylas-SDK-API-Version" := JStr SUPPORTED_API_VERSION]>
               (<["Nylas-API-Version" := JStr SUPPORTED_API_VERSION]>
                  (if nullish (default JUndefined (o !! "User-Agent"))
                   then <["User-Agent" := JStr ("Nylas Node SDK v" +:+ SDK_VERSION)]> o
                   else o)))).
Proof.
  intros Hh Ho.
  assert (Hheap := requestOptions_heap c conn options h).
  rewrite Hh in Hheap. destruct Hheap as (_ & _ & ->).
  rewrite set_headers_lookup, decide_True by reflexivity.
  now rewrite copy_qs_frame, Ho by eauto.
Qed.

(** X4.  Every object of the heap other than the headers object of the
    description is left as it was: in particular the query object of the
    caller, unless it is the headers object itself. *)
Lemma requestOptions_frame (c : config.t) (conn : NylasConnection.t)
    (options : RequestOptions.t) (h : heap) (l : loc) :
  is_Some (h !! l) ->
  RequestOptions.headers options <> Some l ->
  (requestOptions SDK_VERSION c conn options h).2 !! l = h !! l.
Proof.
  intros Hl Hother.
  assert (Hheap := requestOptions_heap c conn options h).
  destruct (RequestOptions.headers options) as [lh|].
  - destruct Hheap as (_ & _ & ->).
    rewrite set_headers_lookup, decide_False by congruence.
    now apply copy_qs_frame.
  - cbv [alloc] in Hheap. destruct Hheap as (_ & _ & ->).
    set (lh := fresh (dom h)).
    assert (Hfresh : h !! lh = None) by apply not_elem_of_dom, is_fresh.
    assert (Hne : lh <> l) by (destruct Hl; congruence).
    rewrite set_headers_lookup, decide_False by assumption.
    rewrite copy_qs_frame; rewrite lookup_insert_ne by assumption; auto.
Qed.

End RequestOptionsFacts.

(** A management path: the client secret is the credential, although the
    connection holds an access token.  Another path: the access token.  A
    connection without access token: no [auth]. *)
Lemma requestOptions_auth_witness :
  CoreOptions.auth
    (NylasConnection.requestOptions Sample.sdk_version Sample.settings
       Sample.connection (Sample.get "/a/abc") ∅).1
  = Some {| Auth.user := "s3cr3t"; Auth.pass := ""; Auth.sendImmediately := true |} /\
  CoreOptions.auth
    (NylasConnection.requestOptions Sample.sdk_version Sample.settings
       Sample.connection (Sample.get "/messages") ∅).1
  = Some {| Auth.user := "t0k3n"; Auth.pass := ""; Auth.sendImmediately := true |} /\
  CoreOptions.auth
    (NylasConnection.requestOptions Sample.sdk_version Sample.settings
       {| NylasConnection.accessToken := None;
          NylasConnection.clientId := Some "abc" |} (Sample.get "/messages") ∅).1
  = None.
Proof.
  refine (conj _ (conj _ _)).
  - destruct (requestOptions_auth Sample.sdk_version Sample.settings
                Sample.connection (Sample.get "/a/abc") ∅ _ _
                (surjective_pairing _)) as [Hpresent _].
    apply (Hpresent "s3cr3t"); [reflexivity | discriminate].
  - destruct (requestOptions_auth Sample.sdk_version Sample.settings
                Sample.connection (Sample.get "/messages") ∅ _ _
                (surjective_pairing _)) as [Hpresent _].
    apply (Hpresent "t0k3n"); [reflexivity | discriminate].
  - destruct (requestOptions_auth Sample.sdk_version Sample.settings
                {| NylasConnection.accessToken := None;
                   NylasConnection.clientId := Some "abc" |}
                (Sample.get "/messages") ∅ _ _
                (surjective_pairing _)) as [_ Habsent].
    apply Habsent. now left.
Defined.

(** C2 as stated fails: with [expanded: false] the copy sent to the
    transport still has its [expanded] key. *)
Lemma requestOptions_keeps_false_expanded :
  exists lq,
    CoreOptions.qs
      (NylasConnection.requestOptions Sample.sdk_version Sample.settings
         Sample.connection (Sample.with_objects "/threads" None (Some 1%positive))
         {[ 1%positive := {[ "expanded" := JS.JBool false ]} ]}).1
    = Some lq /\
    (NylasConnection.requestOptions Sample.sdk_version Sample.settings
       Sample.connection (Sample.with_objects "/threads" None (Some 1%positive))
       {[ 1%positive := {[ "expanded" := JS.JBool false ]} ]}).2 !! lq
    = Some {[ "expanded" := JS.JBool false ]}.
Proof. eexists. split; reflexivity. Qed.

(** [expanded: true] becomes [view: 'expanded'] and the other keys are
    copied; a truthy [expanded] that is not [true] is deleted; a falsy one
    stays; a query without [expanded] is copied as it is. *)
Lemma requestOptions_qs_witness :
  (exists lq,
     CoreOptions.qs
       (NylasConnection.requestOptions Sample.sdk_version Sample.settings
          Sample.connection (Sample.with_objects "/threads" None (Some 1%positive))
          {[ 1%positive := {[ "expanded" := JS.JBool true; "limit" := JS.JNum 5 ]} ]}).1
     = Some lq /\
     (NylasConnection.requestOptions Sample.sdk_version Sample.settings
        Sample.connection (Sample.with_objects "/threads" None (Some 1%positive))
        {[ 1%positive := {[ "expanded" := JS.JBool true; "limit" := JS.JNum 5 ]} ]}).2
     !! lq
     = Some {[ "view" := JS.JStr "expanded"; "limit" := JS.JNum 5 ]}) /\
  (exists lq,
     CoreOptions.qs
       (NylasConnection.requestOptions Sample.sdk_version Sample.settings
          Sample.connection (Sample.with_objects "/threads" None (Some 1%positive))
          {[ 1%positive := {[ "expanded" := JS.JStr "yes"; "view" := JS.JStr "ids" ]} ]}).1
     = Some lq /\
     (NylasConnection.requestOptions Sample.sdk_version Sample.settings
        Sample.connection (Sample.with_objects "/threads" None (Some 1%positive))
        {[ 1%positive := {[ "expanded" := JS.JStr "yes"; "view" := JS.JStr "ids" ]} ]}).2
     !! lq
     = Some {[ "view" := JS.JStr "ids" ]}) /\
  (exists lq,
     CoreOptions.qs
       (NylasConnection.requestOptions Sample.sdk_version Sample.settings
          Sample.connection (Sample.with_objects "/threads" None (Some 1%positive))
          {[ 1%positive := {[ "expanded" := JS.JNum 0 ]} ]}).1
     = Some lq /\
     (NylasConnection.requestOptions Sample.sdk_version Sample.settings
        Sample.connection (Sample.with_objects "/threads" None (Some 1%positive))
        {[ 1%positive := {[ "expanded" := JS.JNum 0 ]} ]}).2
     !! lq
     = Some {[ "expanded" := JS.JNum 0 ]}) /\
  (exists lq,
     CoreOptions.qs
       (NylasConnection.requestOptions Sample.sdk_version Sample.settings
          Sample.connection (Sample.with_objects "/threads" None (Some 1%positive))
          {[ 1%positive := {[ "limit" := JS.JNum 5 ]} ]}).1
     = Some lq /\
     (NylasConnection.requestOptions Sample.sdk_version Sample.settings
        Sample.connection (Sample.with_objects "/threads" None (Some 1%positive))
        {[ 1%positive := {[ "limit" := JS.JNum 5 ]} ]}).2
     !! lq
     = Some {[ "limit" := JS.JNum 5 ]}).
Proof.
  refine (conj _ (conj _ (conj _ _))).
  - edestruct (requestOptions_qs Sample.sdk_version Sample.settings Sample.connection
                 (Sample.with_objects "/threads" None (Some 1%positive))
                 {[ 1%positive := {[ "expanded" := JS.JBool true; "limit" := JS.JNum 5 ]} ]}
                 1%positive {[ "expanded" := JS.JBool true; "limit" := JS.JNum 5 ]})
      as (lq & sent & Hqs & _ & Hsent & Htrue & _);
      [reflexivity | reflexivity | intros lh Hnone; discriminate Hnone
      | apply surjective_pairing |].
    exists lq. split; [exact Hqs|].
    rewrite Hsent, (Htrue eq_refl). reflexivity.
  - edestruct (requestOptions_qs Sample.sdk_version Sample.settings Sample.connection
                 (Sample.with_objects "/threads" None (Some 1%positive))
                 {[ 1%positive := {[ "expanded" := JS.JStr "yes"; "view" := JS.JStr "ids" ]} ]}
                 1%positive {[ "expanded" := JS.JStr "yes"; "view" := JS.JStr "ids" ]})
      as (lq & sent & Hqs & _ & Hsent & _ & Htruthy & _);
      [reflexivity | reflexivity | intros lh Hnone; discriminate Hnone
      | apply surjective_pairing |].
    exists lq. split; [exact Hqs|].
    rewrite Hsent, (Htruthy (JS.JStr "yes") eq_refl eq_refl eq_refl). reflexivity.
  - edestruct (requestOptions_qs Sample.sdk_version Sample.settings Sample.connection
                 (Sample.with_objects "/threads" None (Some 1%positive))
                 {[ 1%positive := {[ "expanded" := JS.JNum 0 ]} ]}
                 1%positive {[ "expanded" := JS.JNum 0 ]})
      as (lq & sent & Hqs & _ & Hsent & _ & _ & Hfalsy & _);
      [reflexivity | reflexivity | intros lh Hnone; discriminate Hnone
      | apply surjective_pairing |].
    exists lq. split; [exact Hqs|].
    rewrite Hsent, (Hfalsy (JS.JNum 0) eq_refl eq_refl). reflexivity.
  - edestruct (requestOptions_qs Sample.sdk_version Sample.settings Sample.connection
                 (Sample.with_objects "/threads" None (Some 1%positive))
                 {[ 1%positive := {[ "limit" := JS.JNum 5 ]} ]}
                 1%positive {[ "limit" := JS.JNum 5 ]})
      as (lq & sent & Hqs & _ & Hsent & _ & _ & _ & Hmissing);
      [reflexivity | reflexivity | intros lh Hnone; discriminate Hnone
      | apply surjective_pairing |].
    exists lq. split; [exact Hqs|].
    rewrite Hsent, (Hmissing eq_refl). reflexivity.
Defined.

(** C9 at a description with a headers object: after the call the
    caller's object holds the four headers [requestOptions] wrote. *)
Example requestOptions_mutates_headers :
  (NylasConnection.requestOptions Sample.sdk_version Sample.settings
     Sample.connection (Sample.with_objects "/messages/abc" (Some 1%positive) None)
     {[ 1%positive := {[ "Accept" := JS.JStr "message/rfc822" ]} ]}).2 !! 1%positive
  = Some {[ "Accept" := JS.JStr "message/rfc822";
            "User-Agent" := JS.JStr "Nylas Node SDK v4.7.0";
            "Nylas-API-Version" := JS.JStr "2.1";
            "Nylas-SDK-API-Version" := JS.JStr "2.1";
            "X-Nylas-Client-Id" := JS.JStr "abc" ]}.
Proof. reflexivity. Qed.

(** ** NylasConnection.requestOptions: payload and headers *)

Section RequestOptionsMore.
Import JS Heap NylasConnection.

Variable SDK_VERSION : string.

(** The payload members of the transport options. *)
Lemma requestOptions_payload_members (c : config.t) (conn : NylasConnection.t)
    (options : RequestOptions.t) (h : heap) :
  CoreOptions.formData (requestOptions SDK_VERSION c conn options h).1
  = (if truthy (RequestOptions.formData options)
     then Some (RequestOptions.formData options) else None) /\
  CoreOptions.body (requestOptions SDK_VERSION c conn options h).1
  = (if truthy (RequestOptions.formData options) then None
     else Some (if truthy (RequestOptions.body options)
                then RequestOptions.body options else JObj ∅)).
Proof.
  unfold requestOptions.
  destruct (match RequestOptions.headers options with
            | Some l => (l, h) | None => alloc ∅ h end) as [lh h1].
  destruct (copy_qs options h1) as [qs h2].
  destruct (truthy (RequestOptions.formData options)); auto.
Qed.

(** X1.  The options carry either [formData] or [body], never both: the
    caller's [formData] when it is truthy, and otherwise a body, which is
    the caller's when that is truthy and the empty object when it is not;
    the body sent is never a falsy value. *)
Theorem requestOptions_payload (c : config.t) (conn : NylasConnection.t)
    (options : RequestOptions.t) (h : heap) :
  (truthy (RequestOptions.formData options) = true ->
     CoreOptions.formData (requestOptions SDK_VERSION c conn options h).1
     = Some (RequestOptions.formData options) /\
     CoreOptions.body (requestOptions SDK_VERSION c conn options h).1 = None) /\
  (truthy (RequestOptions.formData options) = false ->
     CoreOptions.formData (requestOptions SDK_VERSION c conn options h).1 = None /\
     exists sent,
       CoreOptions.body (requestOptions SDK_VERSION c conn options h).1 = Some sent /\
       truthy sent = true /\
       (truthy (RequestOptions.body options) = true ->
          sent = RequestOptions.body options) /\
       (truthy (RequestOptions.body options) = false -> sent = JObj ∅)).
Proof.
  destruct (requestOptions_payload_members c conn options h) as [-> ->].
  destruct (truthy (RequestOptions.formData options)) eqn:Hform.
  - split; [auto | discriminate].
  - split; [discriminate|]. intros _. split; [reflexivity|].
    eexists. split; [reflexivity|].
    destruct (truthy (RequestOptions.body options)) eqn:Hbody.
    + split; [assumption|]. split; [reflexivity | discriminate].
    + split; [reflexivity|]. split; [discriminate | reflexivity].
Qed.

(** The four header names [requestOptions] writes. *)
Lemma written_lookup (conn : NylasConnection.t) (o : gmap string jsval) (k : string) :
  k <> "User-Agent" -> k <> "Nylas-API-Version" ->
  k <> "Nylas-SDK-API-Version" -> k <> "X-Nylas-Client-Id" ->
  (<["X-Nylas-Client-Id" := of_option (clientId conn)]>
     (<["Nylas-SDK-API-Version" := JStr SUPPORTED_API_VERSION]>
        (<["Nylas-API-Version" := JStr SUPPORTED_API_VERSION]>
           (if nullish (default JUndefined (o !! "User-Agent"))
            then <["User-Agent" := JStr ("Nylas Node SDK v" +:+ SDK_VERSION)]> o
            else o)))) !! k = o !! k.
Proof.
  intros Hua Hapi Hsdk Hid.
  rewrite !lookup_insert_ne by congruence.
  destruct (nullish _); [now rewrite lookup_insert_ne by congruence | reflexivity].
Qed.

(** X2.  When the description has a headers object, the options refer to
    that same object, and after the call it holds: the two version headers
    set to the supported API version, whatever they were; the client id of
    the connection; the caller's [User-Agent] when it had one that is not
    [null] or [undefined], and the SDK's otherwise; and every other header
    as the caller set it. *)
Theorem requestOptions_headers (c : config.t) (conn : NylasConnection.t)
    (options : RequestOptions.t) (h : heap) (lh : loc) (before : gmap string jsval) :
  RequestOptions.headers options = Some lh -> h !! lh = Some before ->
  CoreOptions.headers (requestOptions SDK_VERSION c conn options h).1 = lh /\
  exists after,
    (requestOptions SDK_VERSION c conn options h).2 !! lh = Some after /\
    after !! "Nylas-API-Version" = Some (JStr SUPPORTED_API_VERSION) /\
    after !! "Nylas-SDK-API-Version" = Some (JStr SUPPORTED_API_VERSION) /\
    after !! "X-Nylas-Client-Id" = Some (of_option (clientId conn)) /\
    (forall agent, before !! "User-Agent" = Some agent -> nullish agent = false ->
       after !! "User-Agent" = Some agent) /\
    (nullish (default JUndefined (before !! "User-Agent")) = true ->
       after !! "User-Agent" = Some (JStr ("Nylas Node SDK v" +:+ SDK_VERSION))) /\
    (forall k, k <> "User-Agent" -> k <> "Nylas-API-Version" ->
       k <> "Nylas-SDK-API-Version" -> k <> "X-Nylas-Client-Id" ->
       after !! k = before !! k).
Proof.
  intros Hh Hbefore. split.
  - assert (Hheap := requestOptions_heap SDK_VERSION c conn options h).
    rewrite Hh in Hheap. now destruct Hheap.
  - eexists. split;
      [exact (requestOptions_writes_headers SDK_VERSION c conn options h lh before
                Hh Hbefore)|].
    split; [|split; [|split; [|split; [|split]]]].
    + now rewrite lookup_insert_ne, lookup_insert_ne, lookup_insert_eq.
    + now rewrite lookup_insert_ne, lookup_insert_eq.
    + now rewrite lookup_insert_eq.
    + intros agent Hagent Hnot.
      rewrite !lookup_insert_ne, Hagent by discriminate. cbn [default from_option id].
      now rewrite Hnot.
    + intros Hnullish.
      rewrite !lookup_insert_ne, Hnullish by discriminate.
      now rewrite lookup_insert_eq.
    + intros k. apply written_lookup.
Qed.

(** X3.  When the description has no headers object, the options refer to
    a new object, one the heap did not hold, and after the call it holds
    exactly the four headers of the SDK. *)
Theorem requestOptions_new_headers (c : config.t) (conn : NylasConnection.t)
    (options : RequestOptions.t) (h : heap) :
  RequestOptions.headers options = None ->
  h !! CoreOptions.headers (requestOptions SDK_VERSION c conn options h).1 = None /\
  (requestOptions SDK_VERSION c conn options h).2
    !! CoreOptions.headers (requestOptions SDK_VERSION c conn options h).1
  = Some (<["X-Nylas-Client-Id" := of_option (clientId conn)]>
            (<["Nylas-SDK-API-Version" := JStr SUPPORTED_API_VERSION]>
               (<["Nylas-API-Version" := JStr SUPPORTED_API_VERSION]>
                  (<["User-Agent" := JStr ("Nylas Node SDK v" +:+ SDK_VERSION)]> ∅)))).
Proof.
  intros Hh.
  assert (Hheap := requestOptions_heap SDK_VERSION c conn options h).
  rewrite Hh in Hheap. cbv [alloc] in Hheap. destruct Hheap as (-> & _ & ->).
  set (lh := fresh (dom h)).
  assert (Hfresh : h !! lh = None) by apply not_elem_of_dom, is_fresh.
  split; [exact Hfresh|].
  rewrite set_headers_lookup, decide_True by reflexivity.
  rewrite copy_qs_frame, lookup_insert_eq
    by (rewrite lookup_insert_eq; eauto).
  reflexivity.
Qed.

(** X5.  Building the options a second time from the same description
    leaves the caller's headers object as the first call left it. *)
Theorem requestOptions_headers_twice (c : config.t) (conn : NylasConnection.t)
    (options : RequestOptions.t) (h : heap) (lh : loc) (before : gmap string jsval) :
  RequestOptions.headers options = Some lh -> h !! lh = Some before ->
  (requestOptions SDK_VERSION c conn options
     (requestOptions SDK_VERSION c conn options h).2).2 !! lh
  = (requestOptions SDK_VERSION c conn options h).2 !! lh.
Proof.
  intros Hh Hbefore.
  assert (Hfirst := requestOptions_writes_headers SDK_VERSION c conn options h
                      lh before Hh Hbefore).
  rewrite (requestOptions_writes_headers SDK_VERSION c conn options _ lh _ Hh Hfirst).
  rewrite Hfirst. f_equal.
  set (agent := JStr ("Nylas Node SDK v" +:+ SDK_VERSION)).
  assert (Hagent : nullish (default JUndefined
            ((<["X-Nylas-Client-Id" := of_option (clientId conn)]>
               (<["Nylas-SDK-API-Version" := JStr SUPPORTED_API_VERSION]>
                  (<["Nylas-API-Version" := JStr SUPPORTED_API_VERSION]>
                     (if nullish (default JUndefined (before !! "User-Agent"))
                      then <["User-Agent" := agent]> before
                      else before)))) !! "User-Agent")) = false).
  { rewrite !lookup_insert_ne by discriminate.
    destruct (nullish (default JUndefined (before !! "User-Agent"))) eqn:Hua.
    - now rewrite lookup_insert_eq.
    - exact Hua. }
  rewrite Hagent.
  apply map_eq. intros k. rewrite !lookup_insert.
  repeat case_decide; reflexivity.
Qed.

End RequestOptionsMore.

(** A multipart upload carries the form data and no body; a description
    without payload carries the empty object. *)
Lemma requestOptions_payload_witness :
  (CoreOptions.formData
     (NylasConnection.requestOptions Sample.sdk_version Sample.settings
        Sample.connection (Sample.upload "/files" (JS.JObj {[ "file" := JS.JStr "x" ]}))
        ∅).1
   = Some (JS.JObj {[ "file" := JS.JStr "x" ]}) /\
   CoreOptions.body
     (NylasConnection.requestOptions Sample.sdk_version Sample.settings
        Sample.connection (Sample.upload "/files" (JS.JObj {[ "file" := JS.JStr "x" ]}))
        ∅).1
   = None) /\
  CoreOptions.body
    (NylasConnection.requestOptions Sample.sdk_version Sample.settings
       Sample.connection (Sample.get "/messages") ∅).1
  = Some (JS.JObj ∅).
Proof.
  split.
  - now apply requestOptions_payload.
  - destruct (requestOptions_payload Sample.sdk_version Sample.settings
                Sample.connection (Sample.get "/messages") ∅) as [_ Hbody].
    destruct (Hbody eq_refl) as (_ & sent & Hsent & _ & _ & Hempty).
    rewrite Hsent. f_equal. now apply Hempty.
Defined.

(** The headers of a request for a raw message: the caller's [Accept] and
    [User-Agent] stay, a stale version header is overwritten. *)
Lemma requestOptions_headers_witness :
  exists after,
    (NylasConnection.requestOptions Sample.sdk_version Sample.settings
       Sample.connection (Sample.with_objects "/messages/abc" (Some 1%positive) None)
       {[ 1%positive := {[ "Accept" := JS.JStr "message/rfc822";
                           "User-Agent" := JS.JStr "my-app";
                           "Nylas-API-Version" := JS.JStr "1.0" ]} ]}).2 !! 1%positive
    = Some after /\
    after !! "Nylas-API-Version" = Some (JS.JStr "2.1") /\
    after !! "User-Agent" = Some (JS.JStr "my-app") /\
    after !! "Accept" = Some (JS.JStr "message/rfc822").
Proof.
  edestruct (requestOptions_headers Sample.sdk_version Sample.settings
               Sample.connection
               (Sample.with_objects "/messages/abc" (Some 1%positive) None)
               {[ 1%positive := {[ "Accept" := JS.JStr "message/rfc822";
                                   "User-Agent" := JS.JStr "my-app";
                                   "Nylas-API-Version" := JS.JStr "1.0" ]} ]}
               1%positive)
    as (_ & after & Hafter & Hapi & _ & _ & Hagent & _ & Hother);
    [reflexivity | reflexivity |].
  exists after. split; [exact Hafter|]. split; [exact Hapi|]. split.
  - apply (Hagent (JS.JStr "my-app")); reflexivity.
  - rewrite Hother by discriminate. reflexivity.
Defined.

Lemma requestOptions_new_headers_witness :
  (NylasConnection.requestOptions Sample.sdk_version Sample.settings
     Sample.connection (Sample.get "/messages")
     {[ 1%positive := {[ "limit" := JS.JNum 5 ]} ]}).2 !! 2%positive
  = Some {[ "User-Agent" := JS.JStr "Nylas Node SDK v4.7.0";
            "Nylas-API-Version" := JS.JStr "2.1";
            "Nylas-SDK-API-Version" := JS.JStr "2.1";
            "X-Nylas-Client-Id" := JS.JStr "abc" ]}.
Proof.
  destruct (requestOptions_new_headers Sample.sdk_version Sample.settings
              Sample.connection (Sample.get "/messages")
              {[ 1%positive := {[ "limit" := JS.JNum 5 ]} ]} eq_refl)
    as [_ Hnew].
  exact Hnew.
Defined.

(** The query object and a bystander object of the caller are left as
    they were, also when [expanded] is rewritten in the copy. *)
Lemma requestOptions_frame_witness :
  (NylasConnection.requestOptions Sample.sdk_version Sample.settings
     Sample.connection
     (Sample.with_objects "/threads" (Some 2%positive) (Some 1%positive))
     {[ 1%positive := {[ "expanded" := JS.JBool true ]};
        2%positive := {[ "Accept" := JS.JStr "a" ]} ]}).2 !! 1%positive
  = Some {[ "expanded" := JS.JBool true ]}.
Proof.
  rewrite (requestOptions_frame Sample.sdk_version Sample.settings
             Sample.connection
             (Sample.with_objects "/threads" (Some 2%positive) (Some 1%positive))
             {[ 1%positive := {[ "expanded" := JS.JBool true ]};
                2%positive := {[ "Accept" := JS.JStr "a" ]} ]} 1%positive).
  - reflexivity.
  - now exists {[ "expanded" := JS.JBool true ]}.
  - discriminate.
Defined.

Lemma requestOptions_headers_twice_witness :
  (NylasConnection.requestOptions Sample.sdk_version Sample.settings
     Sample.connection (Sample.with_objects "/messages" (Some 1%positive) None)
     (NylasConnection.requestOptions Sample.sdk_version Sample.settings
        Sample.connection (Sample.with_objects "/messages" (Some 1%positive) None)
        {[ 1%positive := {[ "Accept" := JS.JStr "a" ]} ]}).2).2 !! 1%positive
  = Some {[ "Accept" := JS.JStr "a";
            "User-Agent" := JS.JStr "Nylas Node SDK v4.7.0";
            "Nylas-API-Version" := JS.JStr "2.1";
            "Nylas-SDK-API-Version" := JS.JStr "2.1";
            "X-Nylas-Client-Id" := JS.JStr "abc" ]}.
Proof.
  rewrite (requestOptions_headers_twice Sample.sdk_version Sample.settings
             Sample.connection
             (Sample.with_objects "/messages" (Some 1%positive) None)
             {[ 1%positive := {[ "Accept" := JS.JStr "a" ]} ]} 1%positive
             {[ "Accept" := JS.JStr "a" ]} eq_refl).
  - reflexivity.
  - reflexivity.
Defined.

(** ** NylasConnection.request: failures and warnings *)

Section RequestMore.
Import JS Heap NylasConnection.

Variable SDK_VERSION : string.
Variable JSON_parse : string -> completion jsval.

(** X6.  When the transport delivers no response, the promise is rejected
    with the transport's error, or with a new error [No response] when
    there is none; no warning is written, and the body is not looked at:
    this holds for every body and also when [json] is false. *)
Theorem request_no_response (c : config.t) (conn : NylasConnection.t)
    (options : RequestOptions.t) (h : heap) (reply : Reply) :
  response reply = None ->
  warnings (request SDK_VERSION JSON_parse c conn options h reply).2 = [] /\
  (forall e, error reply = Some e ->
     promise (request SDK_VERSION JSON_parse c conn options h reply).2
     = Normal (Rejected e)) /\
  (error reply = None ->
     promise (request SDK_VERSION JSON_parse c conn options h reply).2
     = Normal (Rejected {| message := "No response"; statusCode := None |})).
Proof.
  intros Hnone. rewrite request_outcome. cbn [snd]. unfold complete.
  rewrite Hnone. cbn [warnings promise].
  split; [reflexivity|]. split.
  - now intros e ->.
  - now intros ->.
Qed.


(** X8.  When there is a response and the transport reports an error or
    the status code is above 299, the promise is never resolved, whatever
    the body is: the callback rejects it, or throws. *)
Theorem request_failure_never_resolves (c : config.t) (conn : NylasConnection.t)
    (options : RequestOptions.t) (h : heap) (reply : Reply)
    (response : Response.t) :
  NylasConnection.response reply = Some response ->
  given (error reply) = true \/ 299 < Response.statusCode response ->
  (exists e,
     promise (request SDK_VERSION JSON_parse c conn options h reply).2
     = Normal (Rejected e)) \/
  (exists x,
     promise (request SDK_VERSION JSON_parse c conn options h reply).2 = Throw x).
Proof.
  intros Hresponse Hfailed.
  rewrite request_outcome. cbn [snd]. unfold complete.
  rewrite Hresponse. cbn [promise].
  assert (Hguard : given (error reply) || (299 <? Response.statusCode response) = true).
  { destruct Hfailed as [-> | Hstatus]; [reflexivity|].
    apply Z.ltb_lt in Hstatus. rewrite Hstatus. apply orb_true_r. }
  destruct (parsed_body JSON_parse _ (body reply)) as [parsed|x]; run; [|eauto].
  rewrite Hguard.
  destruct (enrich (error reply) response parsed) as [e|x]; run; eauto.
Qed.

(** The checker's warning for two different non-empty versions is not
    the empty string. *)
Lemma getWarningForVersion_nonempty (sdk api : string) :
  sdk <> api -> sdk <> "" -> api <> "" ->
  String.eqb (_getWarningForVersion (Some sdk) (Some api)) "" = false.
Proof.
  intros Hne Hsdk Hapi. unfold _getWarningForVersion.
  rewrite (differ_strings _ _ Hne), !present_Some by assumption.
  cbn [andb].
  destruct (gt _ _); [reflexivity|]. destruct (gt _ _); reflexivity.
Qed.

(** X10.  The callback writes a warning exactly when the response carries
    a non-empty [nylas-api-version] header different from the supported
    version: then it writes the checker's warning for the two versions, and
    nothing otherwise. *)
Theorem request_warnings (c : config.t) (conn : NylasConnection.t)
    (options : RequestOptions.t) (h : heap) (reply : Reply)
    (response : Response.t) :
  NylasConnection.response reply = Some response ->
  (forall version,
     Response.headers response !! "nylas-api-version" = Some version ->
     version <> "" -> version <> SUPPORTED_API_VERSION ->
     warnings (request SDK_VERSION JSON_parse c conn options h reply).2
     = [_getWarningForVersion (Some SUPPORTED_API_VERSION) (Some version)]) /\
  (Response.headers response !! "nylas-api-version" = None \/
   Response.headers response !! "nylas-api-version" = Some "" \/
   Response.headers response !! "nylas-api-version" = Some SUPPORTED_API_VERSION ->
     warnings (request SDK_VERSION JSON_parse c conn options h reply).2 = []).
Proof.
  intros Hresponse. rewrite request_outcome. cbn [snd]. unfold complete.
  rewrite Hresponse. cbn [warnings]. split.
  - intros version -> Hempty Hother.
    rewrite getWarningForVersion_nonempty; [reflexivity | congruence | | assumption].
    discriminate.
  - intros [-> | [-> | ->]]; reflexivity.
Qed.

End RequestMore.

Lemma request_no_response_witness :
  NylasConnection.promise
    (NylasConnection.request Sample.sdk_version JSON.parse Sample.settings
       Sample.connection (Sample.raw "/messages/abc123") ∅
       (Sample.failure "ECONNREFUSED")).2
  = JS.Normal (NylasConnection.Rejected
                 {| JS.message := "ECONNREFUSED"; JS.statusCode := None |}) /\
  NylasConnection.promise
    (NylasConnection.request Sample.sdk_version JSON.parse Sample.settings
       Sample.connection (Sample.get "/messages") ∅
       {| NylasConnection.error := None; NylasConnection.response := None;
          NylasConnection.body := JS.JUndefined |}).2
  = JS.Normal (NylasConnection.Rejected
                 {| JS.message := "No response"; JS.statusCode := None |}).
Proof.
  split.
  - destruct (request_no_response Sample.sdk_version JSON.parse Sample.settings
                Sample.connection (Sample.raw "/messages/abc123") ∅
                (Sample.failure "ECONNREFUSED") eq_refl) as (_ & Herror & _).
    now apply Herror.
  - destruct (request_no_response Sample.sdk_version JSON.parse Sample.settings
                Sample.connection (Sample.get "/messages") ∅
                {| NylasConnection.error := None; NylasConnection.response := None;
                   NylasConnection.body := JS.JUndefined |} eq_refl)
      as (_ & _ & Hnone).
    now apply Hnone.
Defined.


(** A failed request with a [null] body is not resolved either. *)
Lemma request_failure_never_resolves_witness :
  (exists e,
     NylasConnection.promise
       (NylasConnection.request Sample.sdk_version JSON.parse Sample.settings
          Sample.connection (Sample.get "/messages") ∅
          (Sample.reply 500 JS.JNull)).2
     = JS.Normal (NylasConnection.Rejected e)) \/
  (exists x,
     NylasConnection.promise
       (NylasConnection.request Sample.sdk_version JSON.parse Sample.settings
          Sample.connection (Sample.get "/messages") ∅
          (Sample.reply 500 JS.JNull)).2
     = JS.Throw x).
Proof.
  apply (request_failure_never_resolves Sample.sdk_version JSON.parse Sample.settings
           Sample.connection (Sample.get "/messages") ∅ (Sample.reply 500 JS.JNull)
           {| Response.statusCode := 500; Response.headers := ∅;
              Response.body := JS.JNull |} eq_refl).
  right. simpl. lia.
Defined.

(** A raw message sent with [json] false and answered with status 404
    and the text [Not Found]: [JSON.parse] throws on it. *)
Lemma request_parse_failure_witness :
  NylasConnection.promise
    (NylasConnection.request Sample.sdk_version JSON.parse Sample.settings
       Sample.connection (Sample.send_raw "From: a@b.c") ∅
       (Sample.reply 404 (JS.JStr "Not Found"))).2
  = JS.Throw JS.SyntaxError.
Proof.
  apply (request_parse_failure Sample.sdk_version JSON.parse Sample.settings
           Sample.connection (Sample.send_raw "From: a@b.c") ∅
           (Sample.reply 404 (JS.JStr "Not Found"))
           {| Response.statusCode := 404; Response.headers := ∅;
              Response.body := JS.JStr "Not Found" |}); reflexivity.
Defined.

(** A server on version 1.5 draws the dashboard warning; a server on the
    supported version draws none. *)
Lemma request_warnings_witness :
  NylasConnection.warnings
    (NylasConnection.request Sample.sdk_version JSON.parse Sample.settings
       Sample.connection (Sample.get "/messages") ∅
       (Sample.versioned "1.5" 200 (JS.JObj ∅))).2
  = [NylasConnection.mismatch_text "2.1" "1.5" +:+ NylasConnection.dashboard_hint] /\
  NylasConnection.warnings
    (NylasConnection.request Sample.sdk_version JSON.parse Sample.settings
       Sample.connection (Sample.get "/messages") ∅
       (Sample.versioned "2.1" 200 (JS.JObj ∅))).2
  = [].
Proof.
  split.
  - destruct (request_warnings Sample.sdk_version JSON.parse Sample.settings
                Sample.connection (Sample.get "/messages") ∅
                (Sample.versioned "1.5" 200 (JS.JObj ∅)) _ eq_refl) as [Hwarns _].
    rewrite (Hwarns "1.5"); [reflexivity | reflexivity | discriminate | discriminate].
  - destruct (request_warnings Sample.sdk_version JSON.parse Sample.settings
                Sample.connection (Sample.get "/messages") ∅
                (Sample.versioned "2.1" 200 (JS.JObj ∅)) _ eq_refl) as [_ Hquiet].
    apply Hquiet. right; right. reflexivity.
Defined.

(** ** The version checker on suffixed versions *)

Section VersionSuffix.
Import JS NylasConnection.

Lemma before_dash_cons (c : ascii) (rest : string) :
  before_dash (String c rest)
  = if Ascii.eqb c "-" then "" else String c (before_dash rest).
Proof. destruct c as [[] [] [] [] [] [] [] []]; reflexivity. Qed.

Lemma contains_tail (needle : string) (c : ascii) (s : string) :
  contains needle s -> contains needle (String c s).
Proof. intros (before & rest & ->). now exists (String c before), rest. Qed.

Lemma before_dash_whole (v : string) : ~ contains "-" v -> before_dash v = v.
Proof.
  induction v as [|c v IH]; intros Hno; [reflexivity|].
  rewrite before_dash_cons. destruct (Ascii.eqb_spec c "-") as [->|Hc].
  - exfalso. apply Hno. now exists "", v.
  - f_equal. apply IH. intros Hin. now apply Hno, contains_tail.
Qed.

Lemma before_dash_suffixed (v suffix : string) :
  ~ contains "-" v -> before_dash (v +:+ "-" +:+ suffix) = v.
Proof.
  induction v as [|c v IH]; intros Hno; [reflexivity|].
  change (before_dash (String c (v +:+ "-" +:+ suffix)) = String c v).
  rewrite before_dash_cons. destruct (Ascii.eqb_spec c "-") as [->|Hc].
  - exfalso. apply Hno. now exists "", v.
  - f_equal. apply IH. intros Hin. now apply Hno, contains_tail.
Qed.

(** X11.  Two versions that differ only by a suffix after a dash draw the
    warning without directional hint, whichever of the two is the SDK's:
    the hint compares the integers read before the first dash, and these
    are the same. *)
Theorem getWarningForVersion_suffix (v suffix : string) :
  v <> "" -> ~ contains "-" v ->
  _getWarningForVersion (Some v) (Some (v +:+ "-" +:+ suffix))
  = mismatch_text v (v +:+ "-" +:+ suffix) /\
  _getWarningForVersion (Some (v +:+ "-" +:+ suffix)) (Some v)
  = mismatch_text (v +:+ "-" +:+ suffix) v.
Proof.
  intros Hv Hno.
  assert (Hne : v <> v +:+ "-" +:+ suffix).
  { intros Heq. apply Hno. now exists v, suffix. }
  assert (Hlong : v +:+ "-" +:+ suffix <> "") by (destruct v; [congruence | discriminate]).
  unfold _getWarningForVersion. split.
  - rewrite (differ_strings _ _ Hne), !present_Some by assumption.
    cbn [andb]. rewrite before_dash_suffixed, before_dash_whole by assumption.
    now rewrite gt_irrefl.
  - rewrite (differ_strings _ _ (not_eq_sym Hne)), !present_Some by assumption.
    cbn [andb]. rewrite before_dash_suffixed, before_dash_whole by assumption.
    now rewrite gt_irrefl.
Qed.

End VersionSuffix.

Lemma getWarningForVersion_suffix_witness :
  NylasConnection._getWarningForVersion (Some "2.1") (Some "2.1-rc.3")
  = NylasConnection.mismatch_text "2.1" "2.1-rc.3".
Proof.
  destruct (getWarningForVersion_suffix "2.1" "rc.3") as [Hsdk _].
  - discriminate.
  - apply index_None_iff; [discriminate | reflexivity].
  - exact Hsdk.
Defined.

(** ** Nylas.with and Nylas.application *)

Section Connections.
Import JS Heap NylasConnection Nylas.

Variable SDK_VERSION : string.
Variable JSON_parse : string -> completion jsval.

(** The members of the transport options that are values of the
    description or of the configuration. *)
Lemma requestOptions_members (c : config.t) (conn : NylasConnection.t)
    (options : RequestOptions.t) (h : heap) :
  CoreOptions.method (requestOptions SDK_VERSION c conn options h).1
  = match RequestOptions.method options with
    | Some m => if String.eqb m "" then "GET" else m
    | None => "GET"
    end /\
  CoreOptions.url (requestOptions SDK_VERSION c conn options h).1
  = config.apiServer_text c +:+ RequestOptions.path options /\
  CoreOptions.encoding (requestOptions SDK_VERSION c conn options h).1
  = if default false (RequestOptions.downloadRequest options)
    then Some JNull else None.
Proof.
  unfold requestOptions.
  destruct (match RequestOptions.headers options with
            | Some l => (l, h) | None => alloc ∅ h end) as [lh h1].
  destruct (copy_qs options h1) as [qs h2].
  destruct (truthy (RequestOptions.formData options)); auto.
Qed.

(** X12.  [Nylas.with] throws for an empty access token.  Otherwise it
    returns a connection whose requests carry that token as [auth.user] on
    every path outside [/a/], and the configured client secret, when there
    is one, on the paths under [/a/]. *)
Theorem with_authenticates (st : Nylas.t) (accessToken : string) :
  (accessToken = "" -> exists e, with_ st accessToken = Throw (Thrown e)) /\
  (accessToken <> "" ->
   exists conn,
     with_ st accessToken = Normal conn /\
     forall (options : RequestOptions.t) (h : heap),
       (String.prefix "/a/" (RequestOptions.path options) = false ->
        CoreOptions.auth (requestOptions SDK_VERSION (settings st) conn options h).1
        = Some {| Auth.user := accessToken; Auth.pass := "";
                  Auth.sendImmediately := true |}) /\
       (String.prefix "/a/" (RequestOptions.path options) = true ->
        clientSecret st <> "" ->
        CoreOptions.auth (requestOptions SDK_VERSION (settings st) conn options h).1
        = Some {| Auth.user := clientSecret st; Auth.pass := "";
                  Auth.sendImmediately := true |})).
Proof.
  unfold with_. split.
  - intros ->. simpl. eauto.
  - intros Htoken. rewrite truthy_JStr by assumption. cbn [negb].
    eexists. split; [reflexivity|]. intros options h.
    rewrite requestOptions_auth_field, credential_prefix. split.
    + intros ->. cbn [NylasConnection.accessToken].
      apply String.eqb_neq in Htoken. now rewrite Htoken.
    + intros -> Hsecret. apply String.eqb_neq in Hsecret.
      unfold clientSecret in Hsecret. now rewrite Hsecret.
Qed.

(** X13.  [Nylas.application] throws when the client id or the client
    secret is empty.  Otherwise it makes one request, to the API server's
    [/a/<client id>]: authenticated with the client secret although the
    connection has no access token; with method [GET] and an empty object
    as body when called without options, and with method [PUT] and a body
    holding [application_name] and [redirect_uris] when called with
    options. *)
Theorem application_request_sent (st : Nylas.t)
    (options : option ApplicationOptions.t) (h : heap) (reply : Reply) :
  (clientId st = "" \/ clientSecret st = "" ->
   exists e, application SDK_VERSION JSON_parse st options h reply = Throw (Thrown e)) /\
  (clientId st <> "" -> clientSecret st <> "" ->
   exists sent h' outcome,
     application SDK_VERSION JSON_parse st options h reply
     = Normal (sent, h', outcome) /\
     CoreOptions.url sent
     = config.apiServer_text (settings st) +:+ "/a/" +:+ clientId st /\
     CoreOptions.auth sent
     = Some {| Auth.user := clientSecret st; Auth.pass := "";
               Auth.sendImmediately := true |} /\
     CoreOptions.formData sent = None /\
     (options = None ->
        CoreOptions.method sent = "GET" /\ CoreOptions.body sent = Some (JObj ∅)) /\
     (forall o, options = Some o ->
        CoreOptions.method sent = "PUT" /\
        exists fields,
          CoreOptions.body sent = Some (JObj fields) /\
          fields !! "application_name"
          = Some (or_else (of_option (ApplicationOptions.applicationName o))
                          (of_option (ApplicationOptions.application_name o))) /\
          fields !! "redirect_uris"
          = Some (or_else (of_strings (ApplicationOptions.redirectUris o))
                          (of_strings (ApplicationOptions.redirect_uris o))))).
Proof.
  unfold application. split.
  - intros Hempty. unfold truthy.
    destruct (String.eqb_spec (clientId st) ""),
             (String.eqb_spec (clientSecret st) ""); simpl; eauto.
    tauto.
  - intros Hid Hsecret. rewrite !truthy_JStr by assumption. cbn [negb].
    rewrite request_outcome.
    set (conn := {| NylasConnection.accessToken := None;
                    NylasConnection.clientId := Some (Nylas.clientId st) |}).
    set (description := application_request st options).
    destruct (requestOptions SDK_VERSION (settings st) conn description h)
      as [sent h'] eqn:Hrun.
    assert (Hmembers := requestOptions_members (settings st) conn description h).
    assert (Hauth := requestOptions_auth_field SDK_VERSION (settings st) conn
                       description h).
    assert (Hpayload := requestOptions_payload_members SDK_VERSION (settings st) conn
                          description h).
    rewrite Hrun in Hmembers, Hauth, Hpayload. cbn [fst] in *.
    destruct Hmembers as (Hmethod & Hurl & _).
    assert (Hpath : RequestOptions.path description = "/a/" +:+ Nylas.clientId st)
      by (unfold description, application_request; now destruct options).
    assert (Hform : truthy (RequestOptions.formData description) = false)
      by (unfold description, application_request; now destruct options).
    rewrite Hform in Hpayload. destruct Hpayload as [Hnoform Hsent].
    eexists sent, h', _. split; [reflexivity|].
    split; [now rewrite Hurl, Hpath|].
    split.
    { assert (Hprefix : String.prefix "/a/" ("/a/" +:+ Nylas.clientId st) = true)
        by apply prefix_correct, substring_prefix.
      rewrite Hauth, credential_prefix, Hpath, Hprefix.
      apply String.eqb_neq in Hsecret. unfold clientSecret in Hsecret.
      now rewrite Hsecret. }
    split; [exact Hnoform|]. split.
    + intros ->. split; [now rewrite Hmethod|]. exact Hsent.
    + intros o ->. split; [now rewrite Hmethod|].
      rewrite Hsent.
      eexists. split; [reflexivity|].
      split; [now rewrite lookup_insert_eq|].
      now rewrite lookup_insert_ne, lookup_singleton_eq.
Qed.

End Connections.

(** A connection for a token: the token on a message path, the client
    secret on a management path; no connection for an empty token. *)
Lemma with_authenticates_witness :
  (exists e, Nylas.with_ Sample.nylas "" = JS.Throw (JS.Thrown e)) /\
  (exists conn,
     Nylas.with_ Sample.nylas "user-t0k3n" = JS.Normal conn /\
     CoreOptions.auth
       (NylasConnection.requestOptions Sample.sdk_version Sample.settings conn
          (Sample.get "/messages") ∅).1
     = Some {| Auth.user := "user-t0k3n"; Auth.pass := "";
               Auth.sendImmediately := true |} /\
     CoreOptions.auth
       (NylasConnection.requestOptions Sample.sdk_version Sample.settings conn
          (Sample.get "/a/abc/accounts") ∅).1
     = Some {| Auth.user := "s3cr3t"; Auth.pass := "";
               Auth.sendImmediately := true |}).
Proof.
  split.
  - now apply (with_authenticates Sample.sdk_version Sample.nylas "").
  - destruct (with_authenticates Sample.sdk_version Sample.nylas "user-t0k3n")
      as [_ Hconn].
    destruct Hconn as (conn & Hwith & Hauth); [discriminate|].
    exists conn. split; [exact Hwith|]. split.
    + now apply (Hauth (Sample.get "/messages") ∅).
    + apply (Hauth (Sample.get "/a/abc/accounts") ∅); [reflexivity | discriminate].
Defined.

(** Reading the application, and updating its name: the camel-case field
    wins over the snake-case one, and a field that is not passed is
    [undefined] in the body. *)
Lemma application_request_sent_witness :
  (exists e,
     Nylas.application Sample.sdk_version JSON.parse
       {| Nylas.clientId := "abc";
          Nylas.settings := {| config.apiServer := None; config.clientSecret := "" |};
          Nylas.conn := None; Nylas.accounts := None |}
       None ∅ (Sample.reply 200 (JS.JObj ∅))
     = JS.Throw (JS.Thrown e)) /\
  (exists sent h' outcome,
     Nylas.application Sample.sdk_version JSON.parse Sample.nylas None ∅
       (Sample.reply 200 (JS.JObj ∅))
     = JS.Normal (sent, h', outcome) /\
     CoreOptions.url sent = "https://api.nylas.com/a/abc" /\
     CoreOptions.method sent = "GET" /\
     CoreOptions.auth sent
     = Some {| Auth.user := "s3cr3t"; Auth.pass := ""; Auth.sendImmediately := true |}) /\
  (exists sent h' outcome fields,
     Nylas.application Sample.sdk_version JSON.parse Sample.nylas
       (Some {| ApplicationOptions.application_name := Some "old";
                ApplicationOptions.redirect_uris := None;
                ApplicationOptions.applicationName := Some "new";
                ApplicationOptions.redirectUris := None |})
       ∅ (Sample.reply 200 (JS.JObj ∅))
     = JS.Normal (sent, h', outcome) /\
     CoreOptions.method sent = "PUT" /\
     CoreOptions.body sent = Some (JS.JObj fields) /\
     fields !! "application_name" = Some (JS.JStr "new") /\
     fields !! "redirect_uris" = Some JS.JUndefined).
Proof.
  refine (conj _ (conj _ _)).
  - apply application_request_sent. now right.
  - edestruct (application_request_sent Sample.sdk_version JSON.parse Sample.nylas
                 None ∅ (Sample.reply 200 (JS.JObj ∅))) as [_ Hsent].
    destruct Hsent as (sent & h' & outcome & Hrun & Hurl & Hauth & _ & Hget & _);
      [discriminate | discriminate |].
    exists sent, h', outcome. split; [exact Hrun|].
    split; [exact Hurl|]. split; [now apply Hget | exact Hauth].
  - edestruct (application_request_sent Sample.sdk_version JSON.parse Sample.nylas
                 (Some {| ApplicationOptions.application_name := Some "old";
                          ApplicationOptions.redirect_uris := None;
                          ApplicationOptions.applicationName := Some "new";
                          ApplicationOptions.redirectUris := None |})
                 ∅ (Sample.reply 200 (JS.JObj ∅))) as [_ Hsent].
    destruct Hsent as (sent & h' & outcome & Hrun & _ & _ & _ & _ & Hput);
      [discriminate | discriminate |].
    destruct (Hput _ eq_refl) as (Hmethod & fields & Hbody & Hname & Huris).
    exists sent, h', outcome, fields. split; [exact Hrun|].
    split; [exact Hmethod|]. split; [exact Hbody|].
    split; [exact Hname | exact Huris].
Defined.

(** ** Nylas.config: what it establishes *)

Section ConfigureMore.
Import JS Nylas.

(** X14.  Configuring twice with the same argument gives the state the
    first call gave. *)
Theorem config_twice (args : ConfigArgs.t) (st st' : Nylas.t) :
  config args st = Normal st' -> config args st' = Normal st'.
Proof.
  destruct args as [id secret server], st as [id0 [server0 secret0] conn0 accounts0].
  unfold config. cbn [ConfigArgs.apiServer ConfigArgs.clientId ConfigArgs.clientSecret].
  destruct (present server && no_scheme (default "" server)); [discriminate|].
  intros [= <-].
  unfold present, truthy, of_option.
  destruct server as [s|]; [destruct (String.eqb s "")|];
    destruct (String.eqb id ""), (String.eqb secret ""); reflexivity.
Qed.

(** X15.  After a call of [config] that returns: the stored API server is
    never [null], and it is the production URL or a URL with [://]; the
    connection shared by the collections has the stored client secret as
    its access token and the stored client id; and [accounts] is the
    management collection, since the client id and the client secret are
    strings and so never [null]. *)
Theorem config_establishes (args : ConfigArgs.t) (st st' : Nylas.t) :
  config args st = Normal st' ->
  (exists server,
     apiServer st' = Some server /\
     (server = production_server \/ contains "://" server)) /\
  conn st'
  = Some {| NylasConnection.accessToken := Some (clientSecret st');
            NylasConnection.clientId := Some (clientId st') |} /\
  accounts st' = Some ManagementAccounts.
Proof.
  destruct args as [cid secret server].
  unfold config. cbn [ConfigArgs.apiServer ConfigArgs.clientId ConfigArgs.clientSecret].
  destruct (present server && no_scheme (default "" server)) eqn:Hguard;
    [discriminate|].
  intros [= <-]. split; [|split; reflexivity].
  destruct (present server) eqn:Hserver.
  - destruct server as [s|]; [|discriminate Hserver].
    exists s. split; [reflexivity|]. right.
    cbn [andb default from_option id] in Hguard.
    destruct (String.index 0 "://" s) as [m|] eqn:Hindex.
    + apply (substring_inv m); [discriminate|].
      now apply index_correct1 in Hindex.
    + unfold no_scheme in Hguard. rewrite Hindex in Hguard. discriminate Hguard.
  - exists production_server. split; [reflexivity | now left].
Qed.

End ConfigureMore.

Lemma config_twice_witness :
  Nylas.config
    {| ConfigArgs.clientId := "abc"; ConfigArgs.clientSecret := "";
       ConfigArgs.apiServer := None |}
    {| Nylas.clientId := "abc";
       Nylas.settings := {| config.apiServer := Some "https://api.nylas.com";
                            config.clientSecret := "old" |};
       Nylas.conn := Some {| NylasConnection.accessToken := Some "old";
                             NylasConnection.clientId := Some "abc" |};
       Nylas.accounts := Some Nylas.ManagementAccounts |}
  = JS.Normal
      {| Nylas.clientId := "abc";
         Nylas.settings := {| config.apiServer := Some "https://api.nylas.com";
                              config.clientSecret := "old" |};
         Nylas.conn := Some {| NylasConnection.accessToken := Some "old";
                               NylasConnection.clientId := Some "abc" |};
         Nylas.accounts := Some Nylas.ManagementAccounts |}.
Proof.
  apply (config_twice
           {| ConfigArgs.clientId := "abc"; ConfigArgs.clientSecret := "";
              ConfigArgs.apiServer := None |}
           {| Nylas.clientId := "";
              Nylas.settings := {| config.apiServer := None;
                                   config.clientSecret := "old" |};
              Nylas.conn := None; Nylas.accounts := None |}).
  reflexivity.
Defined.

Lemma config_establishes_witness :
  exists st',
    Nylas.config
      {| ConfigArgs.clientId := "abc"; ConfigArgs.clientSecret := "s3cr3t";
         ConfigArgs.apiServer := Some "http://localhost:5555" |}
      {| Nylas.clientId := "";
         Nylas.settings := {| config.apiServer := None; config.clientSecret := "" |};
         Nylas.conn := None; Nylas.accounts := None |}
    = JS.Normal st' /\
    Nylas.conn st'
    = Some {| NylasConnection.accessToken := Some "s3cr3t";
              NylasConnection.clientId := Some "abc" |} /\
    Nylas.accounts st' = Some Nylas.ManagementAccounts.
Proof.
  eexists. split; [reflexivity|].
  eapply (config_establishes
            {| ConfigArgs.clientId := "abc"; ConfigArgs.clientSecret := "s3cr3t";
               ConfigArgs.apiServer := Some "http://localhost:5555" |}
            {| Nylas.clientId := "";
               Nylas.settings := {| config.apiServer := None;
                                    config.clientSecret := "" |};
               Nylas.conn := None; Nylas.accounts := None |}).
  reflexivity.
Defined.

(** ** The callback of the token request *)

Section TokenCallback.
Import JS Nylas.


End TokenCallback.

(** ** Nylas.urlForAuthentication: the options object *)

Section AuthorizationOptions.
Import JS Nylas.

(** X17.  When [urlForAuthentication] returns, the options object it was
    given has its login hint set (to the empty string when there was none)
    and is otherwise unchanged; called again with that object it returns the
    same URL and leaves the object as it is. *)
Theorem urlForAuthentication_again (st : Nylas.t) (options options' : AuthOptions.t)
    (url : string) :
  urlForAuthentication st options = Normal (url, options') ->
  AuthOptions.loginHint options'
  = Some (default "" (AuthOptions.loginHint options)) /\
  AuthOptions.redirectURI options' = AuthOptions.redirectURI options /\
  AuthOptions.state options' = AuthOptions.state options /\
  AuthOptions.scopes options' = AuthOptions.scopes options /\
  urlForAuthentication st options' = Normal (url, options').
Proof.
  unfold urlForAuthentication.
  destruct (negb (truthy (JStr (clientId st)))); [discriminate|].
  destruct options as [[uri|] hint state scopes];
    cbn [AuthOptions.redirectURI AuthOptions.loginHint AuthOptions.state
         AuthOptions.scopes]; [|discriminate].
  destruct (negb (truthy (JStr uri))) eqn:Huri; [discriminate|].
  intros [= <- <-].
  cbn [AuthOptions.redirectURI AuthOptions.loginHint AuthOptions.state
       AuthOptions.scopes].
  rewrite Huri.
  destruct hint as [hint|]; repeat split; reflexivity.
Qed.

End AuthorizationOptions.

Lemma urlForAuthentication_again_witness :
  Nylas.urlForAuthentication Sample.nylas
    {| AuthOptions.redirectURI := Some "https://x/cb";
       AuthOptions.loginHint := Some ""; AuthOptions.state := Some "s";
       AuthOptions.scopes := None |}
  = JS.Normal
      ("https://api.nylas.com/oauth/authorize?client_id=abc&response_type=code&login_hint=&redirect_uri=https://x/cb&state=s",
       {| AuthOptions.redirectURI := Some "https://x/cb";
          AuthOptions.loginHint := Some ""; AuthOptions.state := Some "s";
          AuthOptions.scopes := None |}).
Proof.
  eapply (urlForAuthentication_again Sample.nylas
            (Sample.authorize (Some "https://x/cb") (Some "s") None)).
  reflexivity.
Defined.
